(** * unet: segmentation metrics and the batch loop of the trainer

    A shallow embedding of [unet/metrics.py] ([iou_pytorch]) and of the
    batch orchestration of [unet/train.py] ([Trainer.train_epoch],
    [Trainer.val_epoch], [Trainer.calc_metrics], [Trainer.train], and
    the list handling of [Trainer.load_datasets] and
    [Trainer._write_images_with_class]).

    Tensor entries and scalars are exact rationals extended with the
    non-finite values of floating point ([float]); rounding is not
    modelled. *)

From Stdlib Require Import String QArith Qround Qminmax Qabs ZArith List Bool Arith.
From Stdlib Require Import Permutation Lia Lqa.
#[local] Set Warnings "-stdlib-vector".
From Stdlib Require Vector.
Import ListNotations.

Local Open Scope Q_scope.

(** ** Scalars *)

(** A torch / numpy scalar: a finite number, an infinity or NaN. *)
Inductive float : Type :=
| Fin (q : Q)
| PInf
| NInf
| NaN.

Definition fneg (x : float) : float :=
  match x with
  | Fin q => Fin (- q)
  | PInf => NInf
  | NInf => PInf
  | NaN => NaN
  end.

Definition fadd (x y : float) : float :=
  match x, y with
  | NaN, _ | _, NaN => NaN
  | Fin a, Fin b => Fin (a + b)
  | PInf, NInf | NInf, PInf => NaN
  | PInf, _ | _, PInf => PInf
  | NInf, _ | _, NInf => NInf
  end.

Definition fsub (x y : float) : float := fadd x (fneg y).

(** [inf * 0] is NaN; otherwise the sign of the product decides. *)
Definition finf_scaled (q : Q) (pos : bool) : float :=
  if Qeq_bool q 0 then NaN
  else if Qle_bool 0 q then (if pos then PInf else NInf)
       else (if pos then NInf else PInf).

Definition fmul (x y : float) : float :=
  match x, y with
  | NaN, _ | _, NaN => NaN
  | Fin a, Fin b => Fin (a * b)
  | Fin a, PInf | PInf, Fin a => finf_scaled a true
  | Fin a, NInf | NInf, Fin a => finf_scaled a false
  | PInf, PInf | NInf, NInf => PInf
  | PInf, NInf | NInf, PInf => NInf
  end.

(** Division: [0/0] and [inf/inf] are NaN, [x/0] is an infinity. *)
Definition fdiv (x y : float) : float :=
  match x, y with
  | NaN, _ | _, NaN => NaN
  | Fin a, Fin b =>
      if Qeq_bool b 0
      then (if Qeq_bool a 0 then NaN else if Qle_bool 0 a then PInf else NInf)
      else Fin (a / b)
  | Fin _, (PInf | NInf) => Fin 0
  | PInf, Fin b => if Qle_bool 0 b then PInf else NInf
  | NInf, Fin b => if Qle_bool 0 b then NInf else PInf
  | (PInf | NInf), (PInf | NInf) => NaN
  end.

(** [torch.clamp(x, lo, hi)] is [min(max(x, lo), hi)]; NaN stays NaN. *)
Definition fclamp (x : float) (lo hi : Q) : float :=
  match x with
  | Fin q => Fin (Qmin (Qmax q lo) hi)
  | PInf => Fin hi
  | NInf => Fin (Qmin lo hi)
  | NaN => NaN
  end.

Definition fceil (x : float) : float :=
  match x with
  | Fin q => Fin (inject_Z (Qceiling q))
  | _ => x
  end.

(** Comparisons: every comparison with NaN is false. *)
Definition flt (x y : float) : bool :=
  match x, y with
  | NaN, _ | _, NaN => false
  | Fin a, Fin b => negb (Qle_bool b a)
  | _, NInf => false
  | NInf, _ => true
  | PInf, _ => false
  | Fin _, PInf => true
  end.

(** The order on floats as a proposition; NaN is not comparable. *)
Definition fle (x y : float) : Prop :=
  match x, y with
  | NaN, _ | _, NaN => False
  | Fin a, Fin b => a <= b
  | NInf, _ => True
  | _, PInf => True
  | _, _ => False
  end.

(** The same float: the same number ([Q] carries unreduced fractions),
    the same infinity, or NaN on both sides. *)
Definition feq (x y : float) : Prop :=
  match x, y with
  | Fin a, Fin b => a == b
  | PInf, PInf | NInf, NInf | NaN, NaN => True
  | _, _ => False
  end.

Definition fsum (l : list float) : float := fold_left fadd l (Fin 0).

(** [.mean()] of a flat tensor / [np.mean] of a list: sum over count,
    NaN on an empty one. *)
Definition fmean (l : list float) : float :=
  fdiv (fsum l) (Fin (inject_Z (Z.of_nat (length l)))).

(** ** unet/metrics.py *)

Module Metrics.

(** Tensors with their shape in the type, so that the element-wise
    operations of the source only meet tensors of equal shape. *)
Definition tensor3 (A : Type) (B H W : nat) : Type :=
  Vector.t (Vector.t (Vector.t A W) H) B.

(** BATCH x C x H x W *)
Definition tensor4 (A : Type) (B C H W : nat) : Type :=
  Vector.t (tensor3 A C H W) B.

(** [t.squeeze(1)] on a BATCH x 1 x H x W tensor. *)
Definition squeeze1 {A B H W} (t : tensor4 A B 1 H W) : tensor3 A B H W :=
  Vector.map (fun channels => Vector.hd channels) t.

Definition tmap {A C B H W} (f : A -> C) (t : tensor3 A B H W) : tensor3 C B H W :=
  Vector.map (Vector.map (Vector.map f)) t.

Definition tmap2 {A C D B H W} (f : A -> C -> D)
  (t : tensor3 A B H W) (u : tensor3 C B H W) : tensor3 D B H W :=
  Vector.map2 (Vector.map2 (Vector.map2 f)) t u.

(** [x > c] on tensor entries. *)
Definition gt (x c : Q) : bool := negb (Qle_bool x c).

(** [b.float()] *)
Definition b2q (b : bool) : Q := if b then 1 else 0.

Definition vsum {n} (v : Vector.t Q n) : Q := Vector.fold_right Qplus v 0.

(** [t.float().sum((1, 2))]: one sum per image, over its rows and columns. *)
Definition sum12 {B H W} (t : tensor3 bool B H W) : Vector.t Q B :=
  Vector.map (fun image => vsum (Vector.map (fun row => vsum (Vector.map b2q row)) image)) t.

Definition SMOOTH : Q := 1 # 1000000.

(** line 23: [torch.clamp(20 * (iou - 0.5), 0, 10).ceil() / 10] *)
Definition thresholded (iou : float) : float :=
  fdiv (fceil (fclamp (fmul (Fin 20) (fsub iou (Fin (1 # 2)))) 0 10)) (Fin 10).

(** What [iou_pytorch] returns: the mean when [reduce], else one score per image. *)
Inductive scores (B : nat) : Type :=
| Reduced (mean : float)
| PerImage (each : Vector.t float B).
Arguments Reduced {B} mean.
Arguments PerImage {B} each.

Section Iou.

(** [torch.sigmoid], element-wise on floats. *)
Variable sigmoid : Q -> Q.

Context {B H W : nat}.

(** lines 12-13 *)
Definition binarize_outputs (outputs : tensor4 Q B 1 H W) : tensor3 bool B H W :=
  tmap (fun x => gt (sigmoid x) (1 # 2)) (squeeze1 outputs).

(** line 14 *)
Definition binarize_labels (labels : tensor4 Q B 1 H W) : tensor3 bool B H W :=
  tmap (fun x => gt x (1 # 2)) (squeeze1 labels).

(** line 16 *)
Definition intersection (outputs labels : tensor4 Q B 1 H W) : Vector.t Q B :=
  sum12 (tmap2 andb (binarize_outputs outputs) (binarize_labels labels)).

(** line 17 *)
Definition union (outputs labels : tensor4 Q B 1 H W) : Vector.t Q B :=
  sum12 (tmap2 orb (binarize_outputs outputs) (binarize_labels labels)).

(** line 21 *)
Definition smoothed_iou (outputs labels : tensor4 Q B 1 H W) : Vector.t float B :=
  Vector.map2 (fun i u => fdiv (fadd (Fin i) (Fin SMOOTH)) (fadd (Fin u) (Fin SMOOTH)))
    (intersection outputs labels) (union outputs labels).

Definition iou_pytorch (outputs labels : tensor4 Q B 1 H W) (reduce : bool) : scores B :=
  let thresholded := Vector.map thresholded (smoothed_iou outputs labels) in
  if reduce then Reduced (fmean (Vector.to_list thresholded))
  else PerImage thresholded.

End Iou.

(** A rational function with the shape of the logistic curve
    (value 1/2 at 0, increasing, between 0 and 1), for running examples. *)
Definition rational_sigmoid (x : Q) : Q :=
  (1 # 2) + x / (2 * (1 + Qabs x)).

(** One image of two pixels, nothing predicted and nothing labelled. *)
Definition blank_outputs : tensor4 Q 1 1 1 2 :=
  Vector.of_list [Vector.of_list [Vector.of_list [Vector.of_list [-(3); -(1 # 2)]]]].
Definition blank_labels : tensor4 Q 1 1 1 2 :=
  Vector.of_list [Vector.of_list [Vector.of_list [Vector.of_list [0; 0]]]].

End Metrics.

(** ** unet/train.py *)

Module Trainer.

Local Open Scope string_scope.
Local Open Scope list_scope.

(** *** Python containers *)

(** A [dict] with string keys, in insertion order. *)
Definition dict (V : Type) : Type := list (string * V).

Fixpoint dict_get {V} (d : dict V) (k : string) : option V :=
  match d with
  | [] => None
  | (k', v) :: d' => if String.eqb k k' then Some v else dict_get d' k
  end.

(** [d[k] = v]: replaces the value of an existing key, else appends. *)
Fixpoint dict_set {V} (d : dict V) (k : string) (v : V) : dict V :=
  match d with
  | [] => [(k, v)]
  | (k', v') :: d' =>
      if String.eqb k k' then (k', v) :: d' else (k', v') :: dict_set d' k v
  end.

Fixpoint dict_remove {V} (d : dict V) (k : string) : dict V :=
  match d with
  | [] => []
  | (k', v) :: d' => if String.eqb k k' then d' else (k', v) :: dict_remove d' k
  end.

(** [d.pop(k)]: [None] stands for the [KeyError] of a missing key. *)
Definition dict_pop {V} (d : dict V) (k : string) : option (V * dict V) :=
  match dict_get d k with
  | Some v => Some (v, dict_remove d k)
  | None => None
  end.

(** [t[mask]] with a boolean mask over the first axis: the rows whose
    mask entry is true; [None] stands for the [IndexError] of a mask of
    another length. *)
Definition index_mask {A} (t : list A) (mask : list bool) : option (list A) :=
  if (length t =? length mask)%nat
  then Some (map fst (filter snd (combine t mask)))
  else None.

(** [range(0, stop, step)] for a positive step: [ceil(stop / step)] starts. *)
Definition py_range (stop step : nat) : list nat :=
  map (fun k => (k * step)%nat) (seq 0 ((stop + step - 1) / step)).

(** [l[start:stop]] for [start <= stop]. *)
Definition slice {A} (l : list A) (start stop : nat) : list A :=
  firstn (stop - start) (skipn start l).

(** [torch.cat(ts)] along the first axis; it raises on an empty list. *)
Definition torch_cat {A} (ts : list (list A)) : option (list A) :=
  match ts with
  | [] => None
  | _ => Some (concat ts)
  end.

(** [(t >= 0)] element-wise. *)
Definition ge0 (t : list Z) : list bool := map (fun c => (0 <=? c)%Z) t.

(** [mask.sum()] *)
Definition count_true (mask : list bool) : nat := length (filter (fun b => b) mask).

(** [mask.float()] *)
Definition to_float (mask : list bool) : list float :=
  map (fun b => Fin (Metrics.b2q b)) mask.

(** *** Data of the batch pipeline *)

(** [(x, y, w, h)] *)
Definition Rect : Type := (Z * Z * Z * Z)%type.

(** One row of classifier output. *)
Definition Logits : Type := list Q.

(** The five values returned by [process_batch_torch_wrap]: flat over the
    batch, [proj], [rectangles], [proj_class] and [image_index] row by row
    for the extracted regions, [true_pred_map] entry by entry for the
    ground-truth regions. *)
Record Projection (P : Type) : Type := {
  proj : list P;
  rectangles : list Rect;
  proj_class : list Z;
  image_index : list nat;
  true_pred_map : list Z
}.
Arguments proj {P} _.
Arguments rectangles {P} _.
Arguments proj_class {P} _.
Arguments image_index {P} _.
Arguments true_pred_map {P} _.

(** Modelled from the spec: the records of the BoundingBoxes store
    (the class lives in the part of unet/metrics.py that is not among the
    sources): (image_id, class_id, confidence, rectangle, is_ground_truth). *)
Record Box : Type := {
  image_id : nat;
  class_id : Z;
  confidence : Q;
  rectangle : Rect;
  is_ground_truth : bool
}.

(** Modelled from the spec: BoundingBoxes (not among the sources), a
    growable collection; [add(box)] appends one record, [size()] returns
    the count. *)
Definition BoundingBoxes : Type := list Box.
Definition addBoundingBox (boxes : BoundingBoxes) (box : Box) : BoundingBoxes :=
  boxes ++ [box].

(** Modelled from the spec: Collector (unet/collector.py is not among the
    sources), a mapping from metric name to the ordered sequence of the
    scalars added under it. *)
Definition Collector : Type := dict (list float).
Definition collector_add (c : Collector) (name : string) (value : float) : Collector :=
  dict_set c name
    (match dict_get c name with Some values => values ++ [value] | None => [value] end).

(** *** The collaborators of the trainer

    The networks, the loss functions, the projection pipeline
    (unet/projections.py) and the detection metrics are used by the
    trainer through their calls only. A loss is a scalar like any other:
    it may be NaN or infinite. *)
Class Collaborators : Type := {
  Img : Type;
  Mask : Type;
  ClassMask : Type;
  Out : Type;
  OutMask : Type;
  Proj : Type;
  Patch : Type;
  Weights : Type;
  StateDict : Type;
  (** [self.model(img)], in training mode or not *)
  model : bool -> Weights -> Img -> Out;
  (** [self.model.state_dict()] *)
  state_dict : Weights -> StateDict;
  (** [self.criterion(out, mask)] *)
  criterion : Out -> Mask -> float;
  (** [out.detach().sigmoid() > 0.5] *)
  binarize : Out -> OutMask;
  (** [process_batch_torch_wrap(img, out_mask, class_mask, filter_masks)] *)
  process_batch_torch_wrap : Img -> OutMask -> ClassMask -> bool -> Projection Proj;
  (** [process_patches(img, rectangles, image_index)] *)
  process_patches : Img -> list Rect -> list nat -> list Patch;
  (** [self.proj_model(patches)] *)
  proj_model : Weights -> list Patch -> list Logits;
  (** [F.cross_entropy(input, target)] *)
  cross_entropy : list Logits -> list Z -> float;
  (** [special_accuracy(pred, true, true_pred_map)] *)
  special_accuracy : list Logits -> list Z -> list Z -> float;
  (** the ["AP"] entries of
      [mAP_wrapper(rectangles, pred_classes, image_indeces, label_mask)] *)
  mAP_wrapper : list Rect -> list Logits -> list nat -> ClassMask -> list float;
  (** [maP_create_boxes(rectangles, pred_classes, image_indeces, label_mask,
      relative_index)] *)
  maP_create_boxes : list Rect -> list Logits -> list nat -> ClassMask -> nat -> list Box;
  (** the ["AP"] entries of [mAP_wrapper_from_boxes(boxes)] *)
  mAP_wrapper_from_boxes : BoundingBoxes -> list float;
  (** [zero_grad], [total_loss.backward()] and [self.optim.step()] on one batch *)
  optim_step : Weights -> Img * Mask * ClassMask -> Weights;
  (** [self.metrics] *)
  metrics : dict (Out -> Mask -> float);
  (** [iou_pytorch(out, mask, reduce=False)] as a list *)
  iou_per_image : Out -> Mask -> list float
}.

Section Passes.

Context {E : Collaborators}.

Definition batch : Type := (Img * Mask * ClassMask)%type.

(** The calls into the classifier and the detection metrics, as they
    happen. *)
Inductive call : Type :=
| Call_proj_model (patches : list Patch)
| Call_cross_entropy (input : list Logits) (target : list Z)
| Call_special_accuracy (pred : list Logits) (true_classes true_pred_map : list Z)
| Call_mAP_wrapper (rectangles : list Rect) (pred_classes : list Logits)
| Call_maP_create_boxes (rectangles : list Rect) (relative_index : nat).

(** The trainer ([self.model] and [self.proj_model] parameters,
    [self.global_step]), the locals of a pass that live across its
    batches, and the trace of calls. An unbound local is [None]. *)
Record state : Type := mk_state {
  weights : Weights;
  global_step : nat;
  proj_out : option (list Logits);
  collection : Collector;
  boxes : BoundingBoxes;
  iou : list float;
  calls : list call
}.

(** Computations on the state that may raise. *)
Definition M (A : Type) : Type := state -> option (A * state).

Definition ret {A} (a : A) : M A := fun s => Some (a, s).

Definition bind {A C} (m : M A) (k : A -> M C) : M C :=
  fun s => match m s with
           | Some (a, s') => k a s'
           | None => None
           end.

Definition lift {A} (o : option A) : M A :=
  fun s => match o with
           | Some a => Some (a, s)
           | None => None
           end.

Definition gets {A} (f : state -> A) : M A := fun s => Some (f s, s).

Definition modify (f : state -> state) : M unit := fun s => Some (tt, f s).

End Passes.

Notation "x <- m ;; k" := (bind m (fun x => k))
  (at level 61, m at next level, right associativity).
Notation "' p <- m ;; k" := (bind m (fun x => match x with p => k end))
  (at level 61, p pattern, m at next level, right associativity).
Notation "m ;;; k" := (bind m (fun _ => k))
  (at level 61, right associativity).

Section Epochs.

Context {E : Collaborators}.

Definition set_weights (w : Weights) (s : state) : state :=
  mk_state w (global_step s) (proj_out s) (collection s) (boxes s) (iou s) (calls s).
Definition set_global_step (n : nat) (s : state) : state :=
  mk_state (weights s) n (proj_out s) (collection s) (boxes s) (iou s) (calls s).
Definition set_proj_out (o : option (list Logits)) (s : state) : state :=
  mk_state (weights s) (global_step s) o (collection s) (boxes s) (iou s) (calls s).
Definition set_collection (c : Collector) (s : state) : state :=
  mk_state (weights s) (global_step s) (proj_out s) c (boxes s) (iou s) (calls s).
Definition set_boxes (b : BoundingBoxes) (s : state) : state :=
  mk_state (weights s) (global_step s) (proj_out s) (collection s) b (iou s) (calls s).
Definition set_iou (l : list float) (s : state) : state :=
  mk_state (weights s) (global_step s) (proj_out s) (collection s) (boxes s) l (calls s).
Definition set_calls (l : list call) (s : state) : state :=
  mk_state (weights s) (global_step s) (proj_out s) (collection s) (boxes s) (iou s) l.

Definition log (c : call) : M unit := modify (fun s => set_calls (calls s ++ [c]) s).

(** [collection.add(name, value)] *)
Definition collect (name : string) (value : float) : M unit :=
  modify (fun s => set_collection (collector_add (collection s) name value) s).

(** Reading the local [proj_out]; it raises [NameError] while unbound. *)
Definition read_proj_out : M (list Logits) :=
  o <- gets proj_out ;; lift o.

Definition call_proj_model (patches : list Patch) : M (list Logits) :=
  w <- gets weights ;;
  log (Call_proj_model patches) ;;;
  ret (proj_model w patches).

Fixpoint for_each {A C} (f : A -> M C) (l : list A) : M (list C) :=
  match l with
  | [] => ret []
  | a :: l' => c <- f a ;; cs <- for_each f l' ;; ret (c :: cs)
  end.

(** What one batch leaves behind for the caller of the projector. *)
Record batch_report : Type := {
  not_enough_rects : bool;
  total_loss : float;
  proj_loss : float;
  segm_loss : float;
  batch_metrics : dict float
}.

(** lines 157-159, 256-258, 339-341: the projection loss over the
    regions with a class [>= 0], when there is one. *)
Definition add_proj_loss (p : Projection Proj) (loss : float) : M (float * float) :=
  if (0 <? count_true (ge0 (proj_class p)))%nat then
    out <- read_proj_out ;;
    input <- lift (index_mask out (ge0 (proj_class p))) ;;
    target <- lift (index_mask (proj_class p) (ge0 (proj_class p))) ;;
    log (Call_cross_entropy input target) ;;;
    let proj_loss := cross_entropy input target in
    ret (fadd loss proj_loss, proj_loss)
  else ret (loss, Fin 0).

(** lines 249-254, 332-337: the classifier on sub-batches of 32 *)
Definition classify_in_chunks (patches : list Patch) : M unit :=
  if (0 <? length patches)%nat then
    outs <- for_each (fun start => call_proj_model (slice patches start (start + 32)))
              (py_range (length patches) 32) ;;
    out <- lift (torch_cat outs) ;;
    modify (set_proj_out (Some out))
  else ret tt.

(** lines 172-178, 263-269: the metrics of [self.metrics] on the batch *)
Fixpoint run_metrics (ms : dict (Out -> Mask -> float)) (out : Out) (mask : Mask)
  (batch_metrics : dict float) : M (dict float) :=
  match ms with
  | [] => ret batch_metrics
  | (metric_name, metric_f) :: ms' =>
      let metric_slug := ("metric_" ++ metric_name)%string in
      let metric_value := metric_f out mask in
      collect metric_slug metric_value ;;;
      run_metrics ms' out mask (dict_set batch_metrics metric_slug metric_value)
  end.

(** lines 189-192, 279-282, 359-362 *)
Definition found_rects (p : Projection Proj) : float :=
  fmean (to_float (ge0 (true_pred_map p))).

(** lines 194-202, 284-292: the per-batch VOC AP *)
Definition voc_metrics_ap (not_enough_rects : bool) (p : Projection Proj)
  (class_mask : ClassMask) (batch_metrics : dict float) : M (dict float) :=
  if negb not_enough_rects then
    out <- read_proj_out ;;
    log (Call_mAP_wrapper (rectangles p) out) ;;;
    let AP := fmean (mAP_wrapper (rectangles p) out (image_index p) class_mask) in
    collect "VOC_Metrics_AP" AP ;;;
    ret (dict_set batch_metrics "VOC_Metrics_AP" AP)
  else ret batch_metrics.

(** lines 166-168, 260-262, 343-345 *)
Definition collect_losses (total_loss proj_loss loss : float) : M unit :=
  collect "total_loss" total_loss ;;;
  collect "proj_loss" proj_loss ;;;
  collect "segm_loss" loss.

(** One iteration of the batch loop of [train_epoch] (lines 130-212).
    The calls that only log are left out: the writer, the progress bar,
    the class counts and the image dumps. *)
Definition train_epoch_batch (b : batch) : M batch_report :=
  let '(img, mask, class_mask) := b in
  w <- gets weights ;;
  let out := model true w img in
  let loss := criterion out mask in
  let out_mask := binarize out in
  let p := process_batch_torch_wrap img out_mask class_mask true in
  ' (total_loss, proj_loss, not_enough_rects) <-
    (if (length (proj p) =? 0)%nat then ret (loss, Fin 0, true)
     else
       out <- call_proj_model (process_patches img (rectangles p) (image_index p)) ;;
       modify (set_proj_out (Some out)) ;;;
       ' (total_loss, proj_loss) <- add_proj_loss p loss ;;
       ret (total_loss, proj_loss, false)) ;;
  modify (fun s => set_weights (optim_step (weights s) b) s) ;;;
  collect_losses total_loss proj_loss loss ;;;
  batch_metrics <- run_metrics metrics out mask [] ;;
  metric_value <-
    (if not_enough_rects then ret (Fin 0)
     else
       out <- read_proj_out ;;
       pred <- lift (index_mask out (ge0 (proj_class p))) ;;
       true_classes <- lift (index_mask (proj_class p) (ge0 (proj_class p))) ;;
       log (Call_special_accuracy pred true_classes (true_pred_map p)) ;;;
       ret (special_accuracy pred true_classes (true_pred_map p))) ;;
  collect "metric_proj_acc" metric_value ;;;
  let batch_metrics := dict_set batch_metrics "metric_proj_acc" metric_value in
  collect "metric_found_rects" (found_rects p) ;;;
  let batch_metrics := dict_set batch_metrics "metric_found_rects" (found_rects p) in
  batch_metrics <- voc_metrics_ap not_enough_rects p class_mask batch_metrics ;;
  modify (fun s => set_global_step (S (global_step s)) s) ;;;
  ret {| not_enough_rects := not_enough_rects; total_loss := total_loss;
         proj_loss := proj_loss; segm_loss := loss; batch_metrics := batch_metrics |}.

(** lines 241-258 and 324-341, shared by [val_epoch] and [calc_metrics] *)
Definition eval_losses (img : Img) (p : Projection Proj) (loss : float)
  : M (float * float * bool) :=
  if (length (proj p) =? 0)%nat then ret (loss, Fin 0, true)
  else
    classify_in_chunks (process_patches img (rectangles p) (image_index p)) ;;;
    ' (total_loss, proj_loss) <- add_proj_loss p loss ;;
    ret (total_loss, proj_loss, false).

(** lines 270-277 and 350-357 *)
Definition eval_proj_acc (not_enough_rects : bool) (p : Projection Proj) : M float :=
  if not_enough_rects || (count_true (ge0 (proj_class p)) =? 0)%nat then ret (Fin 0)
  else
    out <- read_proj_out ;;
    log (Call_special_accuracy out (proj_class p) (true_pred_map p)) ;;;
    ret (special_accuracy out (proj_class p) (true_pred_map p)).

(** One iteration of the batch loop of [val_epoch] (lines 231-295). *)
Definition val_epoch_batch (b : batch) : M batch_report :=
  let '(img, mask, class_mask) := b in
  w <- gets weights ;;
  let out := model false w img in
  let loss := criterion out mask in
  let out_mask := binarize out in
  let p := process_batch_torch_wrap img out_mask class_mask false in
  ' (total_loss, proj_loss, not_enough_rects) <- eval_losses img p loss ;;
  collect_losses total_loss proj_loss loss ;;;
  batch_metrics <- run_metrics metrics out mask [] ;;
  metric_value <- eval_proj_acc not_enough_rects p ;;
  collect "metric_proj_acc" metric_value ;;;
  let batch_metrics := dict_set batch_metrics "metric_proj_acc" metric_value in
  collect "metric_found_rects" (found_rects p) ;;;
  let batch_metrics := dict_set batch_metrics "metric_found_rects" (found_rects p) in
  batch_metrics <- voc_metrics_ap not_enough_rects p class_mask batch_metrics ;;
  ret {| not_enough_rects := not_enough_rects; total_loss := total_loss;
         proj_loss := proj_loss; segm_loss := loss; batch_metrics := batch_metrics |}.

(** lines 364-370: the boxes of the batch go to the store of the pass *)
Definition accumulate_boxes (not_enough_rects : bool) (p : Projection Proj)
  (class_mask : ClassMask) : M unit :=
  if negb not_enough_rects then
    out <- read_proj_out ;;
    store <- gets boxes ;;
    let relative_index := length store in
    log (Call_maP_create_boxes (rectangles p) relative_index) ;;;
    let VOC_boxes :=
      maP_create_boxes (rectangles p) out (image_index p) class_mask relative_index in
    modify (fun s => set_boxes (fold_left addBoundingBox VOC_boxes (boxes s)) s)
  else ret tt.

(** One iteration of the batch loop of [calc_metrics] (lines 314-372). *)
Definition calc_metrics_batch (b : batch) : M batch_report :=
  let '(img, mask, class_mask) := b in
  w <- gets weights ;;
  let out := model false w img in
  let loss := criterion out mask in
  let out_mask := binarize out in
  let p := process_batch_torch_wrap img out_mask class_mask false in
  ' (total_loss, proj_loss, not_enough_rects) <- eval_losses img p loss ;;
  collect_losses total_loss proj_loss loss ;;;
  modify (fun s => set_iou (iou s ++ iou_per_image out mask) s) ;;;
  metric_value <- eval_proj_acc not_enough_rects p ;;
  collect "metric_proj_acc" metric_value ;;;
  let batch_metrics := dict_set [] "metric_proj_acc" metric_value in
  collect "metric_found_rects" (found_rects p) ;;;
  let batch_metrics := dict_set batch_metrics "metric_found_rects" (found_rects p) in
  accumulate_boxes not_enough_rects p class_mask ;;;
  ret {| not_enough_rects := not_enough_rects; total_loss := total_loss;
         proj_loss := proj_loss; segm_loss := loss; batch_metrics := batch_metrics |}.

(** The three batch loops. *)
Inductive pass : Type := Train | Val | Calc.

Definition batch_body (k : pass) : batch -> M batch_report :=
  match k with
  | Train => train_epoch_batch
  | Val => val_epoch_batch
  | Calc => calc_metrics_batch
  end.

(** [train_epoch] runs the model in training mode and asks the projector
    to filter the masks; the other two do neither. *)
Definition training (k : pass) : bool :=
  match k with Train => true | _ => false end.

(** What the projector returns for the batch [b] in the state [s]. *)
Definition projection_of (k : pass) (b : batch) (s : state) : Projection Proj :=
  let '(img, mask, class_mask) := b in
  process_batch_torch_wrap img (binarize (model (training k) (weights s) img))
    class_mask (training k).

(** The patches of the batch [b] in the state [s]. *)
Definition patches_of (k : pass) (b : batch) (s : state) : list Patch :=
  let '(img, mask, class_mask) := b in
  process_patches img (rectangles (projection_of k b s))
    (image_index (projection_of k b s)).

(** The logits that the batch loop obtains for [patches]: in one call
    in [train_epoch], from the calls on the chunks in the other two. *)
Definition classified (k : pass) (w : Weights) (patches : list Patch) : list Logits :=
  match k with
  | Train => proj_model w patches
  | _ => concat (map (fun start => proj_model w (slice patches start (start + 32)))
                   (py_range (length patches) 32))
  end.

(** The segmentation loss of the batch [b] in the state [s]. *)
Definition segmentation_loss (k : pass) (b : batch) (s : state) : float :=
  let '(img, mask, class_mask) := b in
  criterion (model (training k) (weights s) img) mask.

(** lines 220-222, 302-304, 384-385: the mean of every collected
    sequence; [pop("total_loss")] raises when nothing was collected. *)
Definition reduce_epoch : M (float * dict float) :=
  c <- gets collection ;;
  let epoch_reduced_metrics := map (fun '(name, values) => (name, fmean values)) c in
  lift (dict_pop epoch_reduced_metrics "total_loss").

(** [train_epoch] over the batches [it] of the loader (the epoch number
    only labels the logs). *)
Definition train_epoch (it : list batch) : M (float * dict float) :=
  modify (fun s => set_collection [] (set_proj_out None s)) ;;;
  _ <- for_each train_epoch_batch it ;;
  reduce_epoch.

Definition val_epoch (it : list batch) : M (float * dict float) :=
  modify (fun s => set_collection [] (set_proj_out None s)) ;;;
  _ <- for_each val_epoch_batch it ;;
  reduce_epoch.

Definition calc_metrics (it : list batch) : M (float * dict float) :=
  modify (fun s => set_iou [] (set_boxes [] (set_collection [] (set_proj_out None s)))) ;;;
  _ <- for_each calc_metrics_batch it ;;
  store <- gets boxes ;;
  let AP := fmean (mAP_wrapper_from_boxes store) in
  scores <- gets iou ;;
  let IOU := fmean scores in
  ' (epoch_loss, epoch_reduced_metrics) <- reduce_epoch ;;
  ret (epoch_loss, dict_set (dict_set epoch_reduced_metrics "AP" AP) "IOU" IOU).

(** What the data loaders yield: the shuffled and augmented training
    batches of each epoch, the training data as read for the metrics of
    each epoch, and the validation and test batches. *)
Record Loaders : Type := {
  train_it : nat -> list batch;
  train_metrics_it : nat -> list batch;
  val_it : list batch;
  test_it : list batch
}.

(** The trainer during [train]: [best_value], the two files under
    [exp_path], and what was printed (the validation loss of each epoch,
    and the epochs that printed the upgrade line). *)
Record run : Type := {
  self : state;
  best_value : option float;
  current_model_h5 : option StateDict;
  best_model_h5 : option StateDict;
  val_losses : list float;
  upgrades : list nat
}.

(** The passes of one epoch (lines 460-471); the validation loss is kept. *)
Definition epoch_passes (data : Loaders) (i_epoch : nat) : M float :=
  train_epoch (train_it data i_epoch) ;;;
  calc_metrics (train_metrics_it data i_epoch) ;;;
  ' (val_loss, _) <- calc_metrics (val_it data) ;;
  calc_metrics (test_it data) ;;;
  ret val_loss.

(** The body of the epoch loop of [train] (lines 459-485). *)
Definition train_one_epoch (data : Loaders) (i_epoch : nat) (r : run) : option run :=
  match epoch_passes data i_epoch (self r) with
  | None => None
  | Some (val_loss, s) =>
      let saved := state_dict (weights s) in
      if match best_value r with
         | None => true
         | Some best => flt val_loss best
         end
      then Some {| self := s; best_value := Some val_loss;
                   current_model_h5 := Some saved; best_model_h5 := Some saved;
                   val_losses := val_losses r ++ [val_loss];
                   upgrades := upgrades r ++ [i_epoch] |}
      else Some {| self := s; best_value := best_value r;
                   current_model_h5 := Some saved; best_model_h5 := best_model_h5 r;
                   val_losses := val_losses r ++ [val_loss];
                   upgrades := upgrades r |}
  end.

Fixpoint train_loop (data : Loaders) (epochs : list nat) (r : run) : option run :=
  match epochs with
  | [] => Some r
  | i_epoch :: rest =>
      match train_one_epoch data i_epoch r with
      | Some r' => train_loop data rest r'
      | None => None
      end
  end.

(** [train] for [epochs] epochs, from the trainer [trainer] and the
    files found under [exp_path]. *)
Definition train (data : Loaders) (epochs : nat) (trainer : state)
  (current best : option StateDict) : option run :=
  train_loop data (seq 0 epochs)
    {| self := set_global_step 0 trainer; best_value := None;
       current_model_h5 := current; best_model_h5 := best;
       val_losses := []; upgrades := [] |}.

End Epochs.

End Trainer.

(** ** The parts of the pipeline that are not among the sources *)

Module Projections.

Import Trainer.

(** Modelled from the spec: the outcome of GroundTruthMatcher for the
    ground-truth regions of a batch (unet/projections.py is not among the
    sources). Each ground-truth region either received a matching
    predicted rectangle, given by its row among the extracted regions, or
    received none. *)
Definition matches : Type := list (option nat).

(** Modelled from the spec: [true_pred_map] as [process_batch_torch_wrap]
    returns it, with one entry per ground-truth region: the row of the
    matching prediction, or a negative sentinel. *)
Definition encodes (m : matches) (true_pred_map : list Z) : Prop :=
  Forall2 (fun o entry =>
             match o with
             | Some row => entry = Z.of_nat row
             | None => (entry < 0)%Z
             end) m true_pred_map.

Definition found (o : option nat) : bool :=
  match o with Some _ => true | None => false end.

(** Modelled from the spec: the found rate in the spec's words, the
    fraction of the ground-truth regions that received a matching
    prediction: the regions found over all the regions, found or not. *)
Definition fraction_found (m : matches) : Q :=
  inject_Z (Z.of_nat (length (filter found m))) / inject_Z (Z.of_nat (length m)).

(** Modelled from the spec: the contract of [process_batch_torch_wrap]
    (unet/projections.py is not among the sources): the per-region arrays
    go row by row, so they have one length. *)
Definition aligned {P} (p : Projection P) : Prop :=
  length (rectangles p) = length (proj p) /\
  length (proj_class p) = length (proj p) /\
  length (image_index p) = length (proj p).

(** Modelled from the spec: the collaborators keep the row count. The
    projector is [aligned], the patch sampler ([process_patches], in
    unet/projections.py) returns one patch per rectangle, and the
    classifier one row of logits per patch. *)
Definition row_preserving (E : Collaborators) : Prop :=
  (forall img out_mask class_mask filter_masks,
      aligned (process_batch_torch_wrap img out_mask class_mask filter_masks)) /\
  (forall img rects index, length (process_patches img rects index) = length rects) /\
  (forall w patches, length (proj_model w patches) = length patches).

(** The position of the first largest entry. *)
Fixpoint argmax_from (best : Q) (best_i i : nat) (l : list Q) : nat :=
  match l with
  | [] => best_i
  | x :: l' => if Qle_bool x best then argmax_from best best_i (S i) l'
               else argmax_from x i (S i) l'
  end.

Definition argmax (l : Logits) : Z :=
  match l with
  | [] => 0%Z
  | x :: l' => Z.of_nat (argmax_from x 0 1 l')
  end.

(** Modelled from the spec: [special_accuracy] (in the part of
    unet/metrics.py that is not among the sources), the classification
    accuracy of the regions it is given: the mean of the indicator
    "the arg-max logit is the class". *)
Definition accuracy (pred : list Logits) (true_classes true_pred_map : list Z) : float :=
  fmean (to_float (map (fun '(l, c) => (argmax l =? c)%Z) (combine pred true_classes))).

(** Modelled from the spec: [maP_create_boxes] (in the part of
    unet/metrics.py that is not among the sources): one predicted box per
    rectangle and one ground-truth box per annotated region, the image
    index of each offset by [relative_index]. [regions] reads the
    annotated regions (image index, class, rectangle) off the label mask. *)
Definition offset_boxes {C} (regions : C -> list (nat * (Z * Rect)))
  (rects : list Rect) (pred_classes : list Logits) (image_indeces : list nat)
  (label_mask : C) (relative_index : nat) : list Box :=
  map (fun '(r, (l, i)) =>
         {| image_id := relative_index + i; class_id := argmax l;
            confidence := fold_right Qmax 0 l; rectangle := r;
            is_ground_truth := false |})
      (combine rects (combine pred_classes image_indeces))
  ++ map (fun '(i, (c, r)) =>
            {| image_id := relative_index + i; class_id := c; confidence := 1;
               rectangle := r; is_ground_truth := true |})
       (regions label_mask).

End Projections.

(** ** A small world to run the passes in

    An image batch is given by the rectangles that segmentation leaves on
    each of its images, a label mask by the annotated regions of each
    image; a predicted rectangle matches the annotated region of its image
    with the same coordinates. *)

Module Toy.

Import Trainer Projections.

Definition rect_eqb (r r' : Rect) : bool :=
  let '(x, y, w, h) := r in
  let '(x', y', w', h') := r' in
  ((x =? x') && (y =? y') && (w =? w') && (h =? h'))%Z.

(** Batch-flat, each entry with the index of its image. *)
Fixpoint flat {A} (i : nat) (per_image : list (list A)) : list (nat * A) :=
  match per_image with
  | [] => []
  | entries :: rest => map (pair i) entries ++ flat (S i) rest
  end.

Fixpoint index_of {A} (f : A -> bool) (l : list A) (i : nat) : option nat :=
  match l with
  | [] => None
  | a :: l' => if f a then Some i else index_of f l' (S i)
  end.

Definition project (out_mask : list (list Rect)) (class_mask : list (list (Z * Rect)))
  : Projection unit :=
  let preds := flat 0 out_mask in
  let truth := flat 0 class_mask in
  {| proj := map (fun _ => tt) preds;
     rectangles := map snd preds;
     proj_class :=
       map (fun '(i, r) =>
              match find (fun '(j, (_, r')) => (i =? j)%nat && rect_eqb r r') truth with
              | Some (_, (c, _)) => c
              | None => (-1)%Z
              end) preds;
     image_index := map fst preds;
     true_pred_map :=
       map (fun '(j, (_, r')) =>
              match index_of (fun '(i, r) => (i =? j)%nat && rect_eqb r r') preds 0 with
              | Some row => Z.of_nat row
              | None => (-1)%Z
              end) truth |}.

Definition one_hot (c : nat) : Logits :=
  map (fun k => if (k =? c)%nat then 1 else 0) (seq 0 5).

(** The class of a patch is read off its left edge, shifted by the weights. *)
Definition classify (w : nat) (patch : Rect) : Logits :=
  let '(x, _, _, _) := patch in
  one_hot (Z.to_nat ((x + Z.of_nat w) mod 5)).

(** The segmentation loss is the number carried by the mask, shrinking as
    the weights are trained; the projection loss counts the rows. *)
Definition world : Collaborators := {|
  Img := list (list Rect);
  Mask := Q;
  ClassMask := list (list (Z * Rect));
  Out := nat * list (list Rect);
  OutMask := list (list Rect);
  Proj := unit;
  Patch := Rect;
  Weights := nat;
  StateDict := nat;
  model := fun _ w img => (w, img);
  state_dict := fun w => w;
  criterion := fun out mask => Fin (mask / inject_Z (Z.of_nat (S (fst out))));
  binarize := fun out => snd out;
  process_batch_torch_wrap := fun _ out_mask class_mask _ => project out_mask class_mask;
  process_patches := fun _ rects _ => rects;
  proj_model := fun w patches => map (classify w) patches;
  cross_entropy := fun input _ => Fin (inject_Z (Z.of_nat (length input)));
  special_accuracy := accuracy;
  mAP_wrapper := fun _ _ _ _ => [Fin 1];
  maP_create_boxes := offset_boxes (flat 0);
  mAP_wrapper_from_boxes := fun _ => [Fin 1];
  optim_step := fun w _ => S w;
  metrics := [("iou"%string, fun _ _ => Fin 1)];
  iou_per_image := fun out _ => map (fun _ => Fin 1) (snd out)
|}.

Definition start : @state world := mk_state (E := world) 0%nat 0 None [] [] [] [].

(** A rectangle with its left edge at [x]. *)
Definition at_x (x : Z) : Rect := (x, 0, 8, 8)%Z.

(** Two images: two rectangles on the first, of which one is annotated
    (class 0); an annotated region on the second that was not predicted. *)
Definition mixed : @batch world :=
  ([[at_x 0; at_x 1]; []], 3, [[(0%Z, at_x 0)]; [(2%Z, at_x 7)]]).

(** What the matcher found for the two annotated regions of [mixed]. *)
Definition mixed_matches : matches := [Some 0%nat; None].

(** Two images without a predicted rectangle. *)
Definition blank : @batch world := ([[]; []], 1, [[(1%Z, at_x 2)]; []]).

(** One image with one predicted rectangle and no annotated region. *)
Definition stray : @batch world := ([[at_x 3]], 1, [[]]).

(** Four images each; the only region of [late] is on its last image,
    predicted and annotated, the only region of [early] on its second. *)
Definition late : @batch world :=
  ([[]; []; []; [at_x 0]], 1, [[]; []; []; [(0%Z, at_x 0)]]).
Definition early : @batch world :=
  ([[]; [at_x 1]; []; []], 1, [[]; [(1%Z, at_x 1)]; []; []]).

(** Seventy patches: two full chunks of 32 and one of 6. *)
Definition seventy : list Rect := map (fun k => at_x (Z.of_nat k)) (seq 0 70).

(** The same batches for every pass of every epoch. *)
Definition loaders : @Loaders world :=
  {| train_it := fun _ => [mixed]; train_metrics_it := fun _ => [mixed];
     val_it := [mixed; blank]; test_it := [stray] |}.

End Toy.

(** ** A classifier that looks at its batch

    The small world with a classifier that is a function of its input
    and scores every patch with the size of the batch it came in, as a
    layer that normalises over the batch would make it depend on it. *)

Module Batchwise.

Import Trainer Projections Toy.

Definition world : Collaborators := {|
  Img := list (list Rect);
  Mask := Q;
  ClassMask := list (list (Z * Rect));
  Out := nat * list (list Rect);
  OutMask := list (list Rect);
  Proj := unit;
  Patch := Rect;
  Weights := nat;
  StateDict := nat;
  model := fun _ w img => (w, img);
  state_dict := fun w => w;
  criterion := fun out mask => Fin (mask / inject_Z (Z.of_nat (S (fst out))));
  binarize := fun out => snd out;
  process_batch_torch_wrap := fun _ out_mask class_mask _ => project out_mask class_mask;
  process_patches := fun _ rects _ => rects;
  proj_model := fun _ patches =>
                  map (fun _ => [inject_Z (Z.of_nat (length patches))]) patches;
  cross_entropy := fun input _ => Fin (inject_Z (Z.of_nat (length input)));
  special_accuracy := accuracy;
  mAP_wrapper := fun _ _ _ _ => [Fin 1];
  maP_create_boxes := offset_boxes (flat 0);
  mAP_wrapper_from_boxes := fun _ => [Fin 1];
  optim_step := fun w _ => S w;
  metrics := [("iou"%string, fun _ _ => Fin 1)];
  iou_per_image := fun out _ => map (fun _ => Fin 1) (snd out)
|}.

Definition start : @state world := mk_state (E := world) 0%nat 0 None [] [] [] [].

(** Thirty-three patches: one full chunk of 32 and one of 1. *)
Definition thirty_three : list Rect := map (fun k => at_x (Z.of_nat k)) (seq 0 33).

End Batchwise.

(** ** A validation loss that is not a number

    The small world with a segmentation loss that is NaN while the
    weights are those of the second epoch. *)

Module Diverging.

Import Trainer Projections Toy.

Definition world : Collaborators := {|
  Img := list (list Rect);
  Mask := Q;
  ClassMask := list (list (Z * Rect));
  Out := nat * list (list Rect);
  OutMask := list (list Rect);
  Proj := unit;
  Patch := Rect;
  Weights := nat;
  StateDict := nat;
  model := fun _ w img => (w, img);
  state_dict := fun w => w;
  criterion := fun out mask =>
                 match fst out with
                 | 2%nat => NaN
                 | w => Fin (mask / inject_Z (Z.of_nat (S w)))
                 end;
  binarize := fun out => snd out;
  process_batch_torch_wrap := fun _ out_mask class_mask _ => project out_mask class_mask;
  process_patches := fun _ rects _ => rects;
  proj_model := fun w patches => map (classify w) patches;
  cross_entropy := fun input _ => Fin (inject_Z (Z.of_nat (length input)));
  special_accuracy := accuracy;
  mAP_wrapper := fun _ _ _ _ => [Fin 1];
  maP_create_boxes := offset_boxes (flat 0);
  mAP_wrapper_from_boxes := fun _ => [Fin 1];
  optim_step := fun w _ => S w;
  metrics := [("iou"%string, fun _ _ => Fin 1)];
  iou_per_image := fun out _ => map (fun _ => Fin 1) (snd out)
|}.

Definition start : @state world := mk_state (E := world) 0%nat 0 None [] [] [] [].

(** Two images without a predicted rectangle. *)
Definition blank : @batch world := ([[]; []], 1, [[(1%Z, at_x 2)]; []]).

(** One batch for every pass of every epoch. *)
Definition loaders : @Loaders world :=
  {| train_it := fun _ => [blank]; train_metrics_it := fun _ => [blank];
     val_it := [blank]; test_it := [blank] |}.

End Diverging.

(** ** More of unet/metrics.py and unet/train.py *)

Module Thresholds.



End Thresholds.

Module Overlap.

(** One image of two pixels: the first predicted and labelled, the
    second neither. *)
Definition lit_outputs : Metrics.tensor4 Q 1 1 1 2 :=
  Vector.of_list [Vector.of_list [Vector.of_list [Vector.of_list [3; -(3)]]]].
Definition lit_labels : Metrics.tensor4 Q 1 1 1 2 :=
  Vector.of_list [Vector.of_list [Vector.of_list [Vector.of_list [1; 0]]]].

End Overlap.

Module Datasets.

(** [l[:stop]] for any integer [stop]: a negative one counts from the end. *)
Definition slice_to {A} (l : list A) (stop : Z) : list A :=
  if (stop <? 0)%Z then firstn (Z.to_nat (Z.of_nat (length l) + stop)) l
  else firstn (Z.to_nat stop) l.

(** [l[start:]] for [start >= 0]. *)
Definition slice_from {A} (l : list A) (start : nat) : list A := skipn start l.

Section LoadDatasets.

Context {A : Type}.

(** [random.seed(config["seed"]); random.shuffle(files)] *)
Variable shuffle : list A -> list A.

(** [int(n * config["train_fraction"])], as floating point computes it. *)
Variable train_count : nat -> Z.

(** lines 106-109 of [load_datasets]: the training and the validation
    files among the annotation files that were listed. *)
Definition load_datasets (files : list A) : list A * list A :=
  let files := shuffle files in
  let train_files := slice_to files (train_count (length files)) in
  let val_files := slice_from files (length train_files) in
  (train_files, val_files).

End LoadDatasets.

End Datasets.

Module Visual.

Import Trainer.

Section WriteImages.

(** [groups[image_i].append(entry)]; [None] stands for the [IndexError]
    of an image index past the groups. *)
Definition append_to {A} (groups : list (list A)) (image_i : nat) (entry : A)
  : option (list (list A)) :=
  match nth_error groups image_i with
  | Some group => Some (firstn image_i groups ++ (group ++ [entry]) :: skipn (S image_i) groups)
  | None => None
  end.

(** lines 409-411, from position [i] on: every region goes to the groups
    of its image, its true and predicted class to the one list and its
    rectangle to the other. *)
Fixpoint group_from (i : nat) (image_index : list nat)
  (true_classes pred_classes : list Z) (rects : list Rect)
  (grouped_classes : list (list (Z * Z))) (grouped_rectangles : list (list Rect))
  : option (list (list (Z * Z)) * list (list Rect)) :=
  match image_index with
  | [] => Some (grouped_classes, grouped_rectangles)
  | image_i :: rest =>
      match nth_error true_classes i, nth_error pred_classes i with
      | Some t, Some p =>
          match append_to grouped_classes image_i (t, p) with
          | Some grouped_classes' =>
              match nth_error rects i with
              | Some r =>
                  match append_to grouped_rectangles image_i r with
                  | Some grouped_rectangles' =>
                      group_from (S i) rest true_classes pred_classes rects
                        grouped_classes' grouped_rectangles'
                  | None => None
                  end
              | None => None
              end
          | None => None
          end
      | _, _ => None
      end
  end.

(** lines 407-411 of [_write_images_with_class], for [N] images. *)
Definition group_by_image (N : nat) (image_index : list nat)
  (true_classes pred_classes : list Z) (rects : list Rect)
  : option (list (list (Z * Z)) * list (list Rect)) :=
  group_from 0 image_index true_classes pred_classes rects
    (repeat [] N) (repeat [] N).

(** The entries of [values] that belong to the regions of image [j], in
    the order of the regions. *)
Definition regions_of {A} (j : nat) (image_index : list nat) (values : list A) : list A :=
  map snd (filter (fun entry => (fst entry =? j)%nat) (combine image_index values)).

End WriteImages.

End Visual.

Module Frames.

Import Trainer.

Section Frames.

Context {E : Collaborators}.

(** A computation whose every successful run relates the state it starts
    from to the state it ends in. *)
Definition steady (R : state -> state -> Prop) {A} (m : M A) : Prop :=
  forall s a s', m s = Some (a, s') -> R s s'.

(** The trainer itself is as it was: the parameters and the step count. *)
Definition same_trainer (s s' : state) : Prop :=
  weights s' = weights s /\ global_step s' = global_step s.

(** What was collected under [name] so far. *)
Definition collected (name : string) (s : state) : list float :=
  match dict_get (collection s) name with
  | Some values => values
  | None => []
  end.

(** Nothing was collected. *)
Definition same_collection (s s' : state) : Prop := collection s' = collection s.

(** Nothing was collected under the names of the three losses. *)
Definition same_losses (s s' : state) : Prop :=
  forall name,
    In name ["total_loss"; "proj_loss"; "segm_loss"]%string ->
    dict_get (collection s') name = dict_get (collection s) name.

(** No per-image score was added. *)
Definition same_scores (s s' : state) : Prop := iou s' = iou s.

(** The locals of a pass as its batch loop finds them (lines 129, 230
    and 311-313): nothing collected, [proj_out] unbound, and in
    [calc_metrics] no box and no score. *)
Definition fresh (k : pass) (s : state) : state :=
  match k with
  | Calc => set_iou [] (set_boxes [] (set_collection [] (set_proj_out None s)))
  | _ => set_collection [] (set_proj_out None s)
  end.

(** The three passes. *)
Definition run_pass (k : pass) : list batch -> M (float * dict float) :=
  match k with
  | Train => train_epoch
  | Val => val_epoch
  | Calc => calc_metrics
  end.

(** The parameters after the optimizer went over the batches [it]. *)
Definition trained (w : Weights) (it : list batch) : Weights :=
  fold_left optim_step it w.

(** The parameters after the training passes of the epochs [0 .. n-1]. *)
Fixpoint trained_for (data : Loaders) (n : nat) (w : Weights) : Weights :=
  match n with
  | O => w
  | S n' => trained (trained_for data n' w) (train_it data n')
  end.

(** The number of training batches of the epochs [0 .. n-1]. *)
Fixpoint training_batches (data : Loaders) (n : nat) : nat :=
  match n with
  | O => 0
  | S n' => training_batches data n' + length (train_it data n')
  end.

End Frames.

End Frames.

Module Dropping.

Import Trainer Projections Toy.

(** The small world with a patch sampler that returns no patch. *)
Definition world : Collaborators := {|
  Img := list (list Rect);
  Mask := Q;
  ClassMask := list (list (Z * Rect));
  Out := nat * list (list Rect);
  OutMask := list (list Rect);
  Proj := unit;
  Patch := Rect;
  Weights := nat;
  StateDict := nat;
  model := fun _ w img => (w, img);
  state_dict := fun w => w;
  criterion := fun out mask => Fin (mask / inject_Z (Z.of_nat (S (fst out))));
  binarize := fun out => snd out;
  process_batch_torch_wrap := fun _ out_mask class_mask _ => project out_mask class_mask;
  process_patches := fun _ _ _ => [];
  proj_model := fun w patches => map (classify w) patches;
  cross_entropy := fun input _ => Fin (inject_Z (Z.of_nat (length input)));
  special_accuracy := accuracy;
  mAP_wrapper := fun _ _ _ _ => [Fin 1];
  maP_create_boxes := offset_boxes (flat 0);
  mAP_wrapper_from_boxes := fun _ => [Fin 1];
  optim_step := fun w _ => S w;
  metrics := [("iou"%string, fun _ _ => Fin 1)];
  iou_per_image := fun out _ => map (fun _ => Fin 1) (snd out)
|}.

Definition start : @state world := mk_state (E := world) 0%nat 0 None [] [] [] [].

Definition mixed : @batch world :=
  ([[at_x 0; at_x 1]; []], 3, [[(0%Z, at_x 0)]; [(2%Z, at_x 7)]]).

End Dropping.

(** * Facts about unet/metrics.py *)

Section FloatFacts.

Lemma fdiv_Fin (a b : Q) : ~ b == 0 -> fdiv (Fin a) (Fin b) = Fin (a / b).
Proof.
  intros nz. simpl. destruct (Qeq_bool b 0) eqn:e; [|reflexivity].
  apply Qeq_bool_eq in e. contradiction.
Qed.

Lemma inject_nat_succ (n : nat) :
  inject_Z (Z.of_nat (S n)) == inject_Z (Z.of_nat n) + 1.
Proof. rewrite Nat2Z.inj_succ, <- Z.add_1_r, inject_Z_plus. reflexivity. Qed.

Lemma inject_nat_nonneg (n : nat) : 0 <= inject_Z (Z.of_nat n).
Proof.
  change 0 with (inject_Z 0). rewrite <- Zle_Qle. apply Nat2Z.is_nonneg.
Qed.

(** The sum of finitely many finite scores between 0 and 1. *)
Lemma fsum_unit_interval (l : list float) :
  List.Forall (fun x => exists q, x = Fin q /\ 0 <= q <= 1) l ->
  forall a, exists t, fold_left fadd l (Fin a) = Fin t /\
                      a <= t <= a + inject_Z (Z.of_nat (length l)).
Proof.
  induction 1 as [|x l (q & -> & hq) _ IH]; intros a.
  - exists a. split; [reflexivity|]. change (inject_Z (Z.of_nat (length (@nil float)))) with 0. lra.
  - destruct (IH (a + q)) as (t & e & ht). exists t. split; [exact e|].
    cbn [length]. rewrite inject_nat_succ. lra.
Qed.

Lemma fmean_unit_interval (l : list float) :
  l <> [] ->
  List.Forall (fun x => exists q, x = Fin q /\ 0 <= q <= 1) l ->
  exists m, fmean l = Fin m /\ 0 <= m <= 1.
Proof.
  intros ne all. unfold fmean, fsum.
  destruct (fsum_unit_interval l all 0) as (t & -> & ht).
  assert (pos : 0 < inject_Z (Z.of_nat (length l))).
  { destruct l as [|x l]; [contradiction|].
    cbn [length]. rewrite inject_nat_succ.
    pose proof (inject_nat_nonneg (length l)). lra. }
  rewrite fdiv_Fin by lra.
  eexists; split; [reflexivity|]. split.
  - apply Qle_shift_div_l; [exact pos|]. lra.
  - apply Qle_shift_div_r; [exact pos|]. lra.
Qed.

End FloatFacts.

Section IouFacts.

Import Metrics.

Lemma thresholded_Fin (x : Q) :
  thresholded (Fin x) =
  Fin (inject_Z (Qceiling (Qmin (Qmax (20 * (x + - (1 # 2))) 0) 10)) / 10).
Proof. reflexivity. Qed.

(** The clamped value rounded up is one of 0, 1, ..., 10. *)
Lemma bucket_range (x : Q) :
  (0 <= Qceiling (Qmin (Qmax x 0) 10) <= 10)%Z.
Proof.
  assert (lo : 0 <= Qmin (Qmax x 0) 10).
  { apply Q.min_glb; [apply Q.le_max_r | discriminate]. }
  assert (hi : Qmin (Qmax x 0) 10 <= 10) by apply Q.le_min_r.
  split.
  - change 0%Z with (Qceiling 0). apply Qceiling_resp_le, lo.
  - change 10%Z with (Qceiling 10). apply Qceiling_resp_le, hi.
Qed.

Lemma thresholded_score (x : float) :
  x <> NaN ->
  exists k : Z, (0 <= k <= 10)%Z /\ thresholded x = Fin (inject_Z k / 10).
Proof.
  intros nn. destruct x as [q| | |].
  - eexists; split; [|apply thresholded_Fin]. apply bucket_range.
  - exists 10%Z. split; [lia|reflexivity].
  - exists 0%Z. split; [lia|reflexivity].
  - contradiction.
Qed.

Lemma vsum_nonneg {n} (v : Vector.t Q n) :
  Vector.Forall (fun x => 0 <= x) v -> 0 <= vsum v.
Proof.
  unfold vsum. induction 1 as [|n x v hx _ IH]; simpl.
  - lra.
  - lra.
Qed.

Lemma sum12_nonneg {B H W} (t : tensor3 bool B H W) (i : Fin.t B) :
  0 <= Vector.nth (sum12 t) i.
Proof.
  unfold sum12. rewrite (Vector.nth_map _ _ i i eq_refl).
  apply vsum_nonneg, Vector.Forall_map, Vector.Forall_forall. intros row _.
  apply vsum_nonneg, Vector.Forall_map, Vector.Forall_forall. intros b _.
  destruct b; simpl; lra.
Qed.

Variable sigmoid : Q -> Q.

Lemma smoothed_iou_nth {B H W} (outputs labels : tensor4 Q B 1 H W) (i : Fin.t B) :
  Vector.nth (smoothed_iou sigmoid outputs labels) i =
  Fin ((Vector.nth (intersection sigmoid outputs labels) i + SMOOTH)
       / (Vector.nth (union sigmoid outputs labels) i + SMOOTH)).
Proof.
  unfold smoothed_iou. rewrite (Vector.nth_map2 _ _ _ i i i eq_refl eq_refl).
  simpl fadd. apply fdiv_Fin.
  pose proof (sum12_nonneg
    (tmap2 orb (binarize_outputs sigmoid outputs) (binarize_labels labels)) i) as h.
  fold (union sigmoid outputs labels) in h.
  unfold SMOOTH. intros e. 
  assert (0 < 1 # 1000000) by reflexivity. lra.
Qed.

End IouFacts.

Section IouClaims.

Import Metrics.

Variable sigmoid : Q -> Q.

(** C1. An image whose binarized prediction and label have no pixel in
    their intersection and none in their union has the smoothed IoU
    SMOOTH/SMOOTH and is given the score 1, a number and not NaN. *)
Theorem iou_zero_over_zero_is_one {B H W} (outputs labels : tensor4 Q B 1 H W)
  (i : Fin.t B) :
  Vector.nth (intersection sigmoid outputs labels) i == 0 ->
  Vector.nth (union sigmoid outputs labels) i == 0 ->
  feq (Vector.nth (smoothed_iou sigmoid outputs labels) i) (Fin (SMOOTH / SMOOTH)) /\
  exists each, iou_pytorch sigmoid outputs labels false = PerImage each /\
               feq (Vector.nth each i) (Fin 1).
Proof.
  intros hi hu.
  pose proof (smoothed_iou_nth sigmoid outputs labels i) as e.
  split.
  - rewrite e. simpl. rewrite hi, hu. reflexivity.
  - eexists; split; [reflexivity|].
    rewrite (Vector.nth_map _ _ i i eq_refl), e, thresholded_Fin.
    simpl. rewrite hi, hu. reflexivity.
Qed.

(** C2. The bucketing of line 23 is non-decreasing in the smoothed IoU,
    and an IoU of at most 0.5 falls in bucket 0. *)
Theorem bucketing_monotone (x y : Q) :
  x <= y ->
  fle (thresholded (Fin x)) (thresholded (Fin y)) /\
  (x <= 1 # 2 -> feq (thresholded (Fin x)) (Fin 0)).
Proof.
  intros le. rewrite !thresholded_Fin. simpl. split.
  - unfold Qdiv. apply Qmult_le_compat_r; [|discriminate].
    rewrite <- Zle_Qle. apply Qceiling_resp_le.
    apply Q.min_le_compat_r, Q.max_le_compat_r. lra.
  - intros half.
    set (c := Qmin (Qmax (20 * (x + - (1 # 2))) 0) 10).
    assert (lo : 0 <= c).
    { apply Q.min_glb; [apply Q.le_max_r | discriminate]. }
    assert (hi : c <= 0).
    { apply Qle_trans with (Qmax (20 * (x + - (1 # 2))) 0); [apply Q.le_min_l|].
      apply Q.max_lub; lra. }
    apply Qceiling_resp_le in lo, hi. change (Qceiling 0) with 0%Z in lo, hi.
    replace (Qceiling c) with 0%Z by lia. reflexivity.
Qed.

(** C10, amended. Every per-image score is a number k/10 with k one of
    0, ..., 10, so between 0 and 1; the mean over a batch of at least one
    image is a number between 0 and 1. *)
Theorem iou_scores_are_tenths :
  (forall B H W (outputs labels : tensor4 Q B 1 H W),
      exists each, iou_pytorch sigmoid outputs labels false = PerImage each /\
        forall i, exists k : Z,
          (0 <= k <= 10)%Z /\ Vector.nth each i = Fin (inject_Z k / 10) /\
          0 <= inject_Z k / 10 <= 1) /\
  (forall n H W (outputs labels : tensor4 Q (S n) 1 H W),
      exists m, iou_pytorch sigmoid outputs labels true = Reduced (Fin m) /\
                0 <= m <= 1).
Proof.
  assert (score : forall B H W (outputs labels : tensor4 Q B 1 H W) i,
    exists k : Z,
      (0 <= k <= 10)%Z /\
      Vector.nth (Vector.map thresholded (smoothed_iou sigmoid outputs labels)) i
      = Fin (inject_Z k / 10) /\
      0 <= inject_Z k / 10 <= 1).
  { intros B H W outputs labels i.
    rewrite (Vector.nth_map _ _ i i eq_refl), smoothed_iou_nth.
    destruct (thresholded_score (Fin ((Vector.nth (intersection sigmoid outputs labels) i
                + SMOOTH) / (Vector.nth (union sigmoid outputs labels) i + SMOOTH))))
      as (k & hk & e); [discriminate|].
    exists k. split; [exact hk|]. split; [exact e|].
    destruct hk as [k0 k10]. rewrite Zle_Qle in k0, k10.
    change (inject_Z 0) with 0 in k0. change (inject_Z 10) with 10 in k10.
    split.
    - apply Qle_shift_div_l; [reflexivity|]. lra.
    - apply Qle_shift_div_r; [reflexivity|]. lra. }
  split.
  - intros B H W outputs labels. eexists; split; [reflexivity|]. apply score.
  - intros n H W outputs labels. unfold iou_pytorch.
    destruct (fmean_unit_interval
      (Vector.to_list (Vector.map thresholded (smoothed_iou sigmoid outputs labels))))
      as (m & e & hm).
    + intros e. apply (f_equal (@length float)) in e.
      rewrite Vector.length_to_list in e. discriminate e.
    + apply Vector.to_list_Forall, Vector.Forall_nth. intros i.
      destruct (score _ _ _ outputs labels i) as (k & _ & e & hk).
      eexists; split; [exact e | exact hk].
    + exists m. rewrite e. split; [reflexivity | exact hm].
Qed.

End IouClaims.

Section IouExamples.

Import Metrics.

Lemma iou_zero_over_zero_witness :
  Vector.nth (intersection rational_sigmoid blank_outputs blank_labels) Fin.F1 == 0 /\
  Vector.nth (union rational_sigmoid blank_outputs blank_labels) Fin.F1 == 0 /\
  feq (Vector.nth (smoothed_iou rational_sigmoid blank_outputs blank_labels) Fin.F1)
      (Fin (SMOOTH / SMOOTH)) /\
  exists each, iou_pytorch rational_sigmoid blank_outputs blank_labels false
               = PerImage each /\
               feq (Vector.nth each Fin.F1) (Fin 1).
Proof.
  split; [reflexivity|]. split; [reflexivity|].
  apply (iou_zero_over_zero_is_one rational_sigmoid blank_outputs blank_labels Fin.F1);
    reflexivity.
Defined.

Lemma bucketing_monotone_witness :
  45 # 100 <= 55 # 100 /\
  fle (thresholded (Fin (45 # 100))) (thresholded (Fin (55 # 100))) /\
  (45 # 100 <= 1 # 2 -> feq (thresholded (Fin (45 # 100))) (Fin 0)).
Proof.
  split; [discriminate|]. apply (bucketing_monotone (45 # 100) (55 # 100)). discriminate.
Defined.

(** The buckets of the IoU values 0.45, 0.50, 0.55, 0.75 and 1.0. *)
Example buckets_of_five_values :
  map (fun x => thresholded (Fin x)) [45 # 100; 1 # 2; 55 # 100; 3 # 4; 1]
  = [Fin (0 / 10); Fin (0 / 10); Fin (1 / 10); Fin (5 / 10); Fin (10 / 10)].
Proof. reflexivity. Qed.

(** C10 as stated fails on a batch of no images: the mean of no scores
    is NaN. *)
Lemma iou_mean_of_empty_batch :
  ~ exists m,
      iou_pytorch (B := 0) (H := 1) (W := 1) rational_sigmoid
        (Vector.nil _) (Vector.nil _) true = Reduced (Fin m) /\
      0 <= m <= 1.
Proof. intros (m & e & _). discriminate e. Qed.

End IouExamples.

(** * Facts about unet/train.py *)

Section ChunkFacts.

Import Trainer.

Context {A : Type}.

Lemma firstn_add_skipn (a b : nat) (l : list A) :
  firstn (a + b) l = firstn a l ++ firstn b (skipn a l).
Proof.
  revert l. induction a as [|a IH]; intros l; [reflexivity|].
  destruct l as [|x l]; simpl.
  - now rewrite firstn_nil.
  - now rewrite IH.
Qed.

Lemma slice_step (l : list A) (start step : nat) :
  slice l start (start + step) = firstn step (skipn start l).
Proof. unfold slice. f_equal. lia. Qed.

(** The first [m] slices of width [step], in order, make up the first
    [m * step] entries. *)
Lemma concat_slices (l : list A) (step m : nat) :
  concat (map (fun start => slice l start (start + step))
            (map (fun k => k * step)%nat (seq 0 m)))
  = firstn (m * step) l.
Proof.
  induction m as [|m IH]; [reflexivity|].
  rewrite seq_S, !map_app, concat_app, IH. simpl.
  rewrite app_nil_r, slice_step.
  replace (step + m * step)%nat with (m * step + step)%nat by lia.
  now rewrite firstn_add_skipn.
Qed.

Lemma py_range_covers (n : nat) : (n <= (n + 32 - 1) / 32 * 32)%nat.
Proof.
  pose proof (Nat.div_mod_eq (n + 32 - 1) 32).
  pose proof (Nat.mod_upper_bound (n + 32 - 1) 32). lia.
Qed.

(** The slices of width 32 at the starts [range(0, len(l), 32)],
    concatenated, are [l]. *)
Lemma concat_chunks (l : list A) :
  concat (map (fun start => slice l start (start + 32)) (py_range (length l) 32)) = l.
Proof.
  unfold py_range. rewrite concat_slices. apply firstn_all2, py_range_covers.
Qed.

Lemma py_range_nonempty (n : nat) : (0 < n)%nat -> py_range n 32 <> [].
Proof.
  intros pos e. apply (f_equal (@length nat)) in e.
  unfold py_range in e. rewrite length_map, length_seq in e.
  change (length (@nil nat)) with 0%nat in e.
  apply Nat.div_small_iff in e; lia.
Qed.

Lemma index_mask_length (t : list A) (mask : list bool) :
  length t = length mask ->
  index_mask t mask = Some (map fst (filter snd (combine t mask))).
Proof. intros e. unfold index_mask. now rewrite e, Nat.eqb_refl. Qed.

End ChunkFacts.

Section DictFacts.

Import Trainer.

Context {V : Type}.

Lemma dict_get_set_same (d : dict V) (k : string) (v : V) :
  dict_get (dict_set d k v) k = Some v.
Proof.
  induction d as [|[k' v'] d IH]; simpl.
  - now rewrite String.eqb_refl.
  - destruct (String.eqb k k') eqn:e; simpl; rewrite e; [reflexivity | exact IH].
Qed.

Lemma dict_get_set_other (d : dict V) (k k' : string) (v : V) :
  k <> k' -> dict_get (dict_set d k' v) k = dict_get d k.
Proof.
  intros ne. induction d as [|[k0 v0] d IH]; simpl.
  - apply String.eqb_neq in ne. now rewrite ne.
  - destruct (String.eqb k' k0) eqn:e; simpl.
    + apply String.eqb_eq in e. subst k0.
      apply String.eqb_neq in ne. now rewrite ne.
    + destruct (String.eqb k k0); [reflexivity | exact IH].
Qed.

End DictFacts.

Section CollectorFacts.

Import Trainer.

Lemma collector_get_add_same (c : Collector) (k : string) (v : float) :
  exists l, dict_get (collector_add c k v) k = Some (l ++ [v]).
Proof.
  unfold collector_add. rewrite dict_get_set_same.
  destruct (dict_get c k) as [l|]; [exists l | exists []]; reflexivity.
Qed.

Lemma collector_get_add_other (c : Collector) (k k' : string) (v : float) :
  k <> k' -> dict_get (collector_add c k' v) k = dict_get c k.
Proof. intros ne. unfold collector_add. now apply dict_get_set_other. Qed.

End CollectorFacts.

Section MonadFacts.

Import Trainer.

Context {E : Collaborators}.

(** The metrics of [self.metrics] always run, and touch nothing but the
    sequences collected under their own slugs. *)
Lemma run_metrics_run (ms : dict (Out -> Mask -> float)) (out : Out) (mask : Mask) :
  forall (bm : dict float) (s : state),
  exists bm' c',
    run_metrics ms out mask bm s = Some (bm', set_collection c' s) /\
    forall k, (forall name, k <> ("metric_" ++ name)%string) ->
              dict_get c' k = dict_get (collection s) k.
Proof.
  induction ms as [|[name f] ms IH]; intros bm s.
  - exists bm, (collection s). split; [|reflexivity].
    destruct s; reflexivity.
  - simpl.
    destruct (IH (dict_set bm ("metric_" ++ name)%string (f out mask))
                (set_collection
                   (collector_add (collection s) ("metric_" ++ name)%string (f out mask)) s))
      as (bm' & c' & run & keep).
    exists bm', c'. split.
    + unfold collect, modify, bind. exact run.
    + intros k fresh. rewrite keep by exact fresh. simpl.
      apply collector_get_add_other, fresh.
Qed.

End MonadFacts.

Section RunFacts.

Import Trainer.

Context {E : Collaborators}.

Lemma state_eta (s : state) :
  mk_state (weights s) (global_step s) (proj_out s) (collection s) (boxes s) (iou s)
    (calls s) = s.
Proof. destruct s; reflexivity. Qed.

(** The classifier is called once per element, in order. *)
Lemma for_each_call_proj_model {A} (f : A -> list Patch) (l : list A) :
  forall s,
    for_each (fun a => call_proj_model (f a)) l s
    = Some (map (fun a => proj_model (weights s) (f a)) l,
            set_calls (calls s ++ map (fun a => Call_proj_model (f a)) l) s).
Proof.
  induction l as [|a l IH]; intros s.
  - simpl. unfold ret, set_calls. now rewrite app_nil_r, state_eta.
  - cbn [for_each]. unfold bind at 1. unfold call_proj_model at 1.
    unfold bind, gets, log, modify, ret. rewrite IH.
    destruct s; unfold set_calls; cbn. now rewrite <- app_assoc.
Qed.

(** lines 249-254 on at least one patch: the chunks go to the
    classifier in order and [proj_out] holds their outputs, concatenated. *)
Lemma classify_in_chunks_run (patches : list Patch) (s : state) :
  patches <> [] ->
  classify_in_chunks patches s
  = Some (tt,
          set_proj_out (Some (classified Val (weights s) patches))
            (set_calls
               (calls s ++ map (fun start => Call_proj_model (slice patches start (start + 32)))
                               (py_range (length patches) 32)) s)).
Proof.
  intros ne. unfold classify_in_chunks.
  assert (pos : (0 < length patches)%nat) by (destruct patches; [contradiction | simpl; lia]).
  apply Nat.ltb_lt in pos as test. rewrite test.
  unfold bind at 1. rewrite for_each_call_proj_model.
  unfold bind, lift, modify, torch_cat, classified.
  destruct (map _ (py_range _ _)) eqn:e; [|reflexivity].
  apply map_eq_nil in e. now apply py_range_nonempty in e.
Qed.

Lemma count_true_pos (l : list Z) :
  (0 < count_true (ge0 l))%nat <-> exists c, In c l /\ (0 <= c)%Z.
Proof.
  unfold count_true, ge0. induction l as [|c l IH]; simpl.
  - split; [lia | intros (c & [] & _)].
  - destruct (0 <=? c)%Z eqn:e; simpl.
    + split; [|lia]. intros _. exists c. split; [now left | lia].
    + rewrite IH. split; intros (c' & hin & hc).
      * exists c'. split; [now right | exact hc].
      * destruct hin as [<- | hin]; [lia|]. exists c'. now split.
Qed.

Lemma length_ge0 (l : list Z) : length (ge0 l) = length l.
Proof. apply length_map. Qed.

End RunFacts.

Section ChunkedClassification.

Import Trainer.

Context {E : Collaborators}.

Variable classify : Weights -> Patch -> Logits.

Hypothesis proj_model_patchwise :
  forall w patches, proj_model w patches = map (classify w) patches.

(** For a classifier that scores each patch by itself, the chunked
    calls return what the single call returns. *)
Lemma classified_patchwise (k : pass) (w : Weights) (patches : list Patch) :
  classified k w patches = proj_model w patches.
Proof.
  destruct k; [reflexivity| |]; unfold classified;
    rewrite (map_ext _ (fun start => map (classify w) (slice patches start (start + 32))))
      by (intros; apply proj_model_patchwise);
    rewrite <- (map_map (fun start => slice patches start (start + 32)) (map (classify w))),
      <- concat_map, concat_chunks;
    symmetry; apply proj_model_patchwise.
Qed.

(** C6. For a classifier that scores each patch by itself and a
    sequence of at least one patch, the loop of lines 249-254 hands it
    the patches in sub-batches of at most 32 that make up the sequence in
    its order, and leaves in [proj_out] exactly the logits of one call on
    all the patches, row for row. *)
Theorem chunked_classification_equivalence (patch : Patch) (patches : list Patch)
  (s : state) :
  exists s' chunks,
    classify_in_chunks (patch :: patches) s = Some (tt, s') /\
    calls s' = calls s ++ map Call_proj_model chunks /\
    concat chunks = patch :: patches /\
    Forall (fun chunk => length chunk <= 32)%nat chunks /\
    proj_out s' = Some (proj_model (weights s) (patch :: patches)).
Proof.
  rewrite classify_in_chunks_run by discriminate.
  eexists.
  exists (map (fun start => slice (patch :: patches) start (start + 32))
            (py_range (length (patch :: patches)) 32)).
  split; [reflexivity|].
  split; [cbn [calls set_proj_out set_calls]; now rewrite map_map|].
  split; [apply concat_chunks|].
  split.
  - apply Forall_map, Forall_forall. intros start _.
    rewrite slice_step. apply firstn_le_length.
  - cbn [proj_out set_proj_out]. now rewrite classified_patchwise.
Qed.

End ChunkedClassification.

Section BatchFacts.

Import Trainer Projections.

Context {E : Collaborators}.

Local Open Scope string_scope.
Local Open Scope list_scope.

(** Running a batch body symbolically: the monad and the state
    accessors unfold, everything else stays folded. *)
Ltac exec :=
  cbv beta iota zeta delta
    [bind gets modify ret lift log collect collect_losses read_proj_out
     call_proj_model add_proj_loss voc_metrics_ap eval_losses eval_proj_acc
     accumulate_boxes set_weights set_global_step set_proj_out set_collection
     set_boxes set_iou set_calls weights global_step proj_out collection boxes
     iou calls negb orb not_enough_rects total_loss proj_loss segm_loss
     batch_metrics].

Ltac run_metrics_step :=
  match goal with
  | |- context [run_metrics ?ms ?o ?m ?bm ?s] =>
      let bm' := fresh "bm" in
      let c' := fresh "c" in
      let run := fresh "run" in
      let keep := fresh "keep" in
      destruct (run_metrics_run ms o m bm s) as (bm' & c' & run & keep);
      rewrite run; clear run
  end.

Ltac unfold_body :=
  cbv beta iota delta [batch_body training train_epoch_batch val_epoch_batch
                       calc_metrics_batch].

(** The value collected last under one of the three loss names. *)
Ltac collected keep :=
  repeat (rewrite collector_get_add_other by discriminate);
  try (rewrite keep by (let e := fresh in intros ? e; cbv [String.append] in e;
                        discriminate e);
       cbv beta iota delta [collection]);
  repeat (rewrite collector_get_add_other by discriminate);
  apply collector_get_add_same.

Lemma eqb_zero_ltb (n : nat) : (n =? 0)%nat = negb (0 <? n)%nat.
Proof. now destruct n. Qed.

Lemma length_classified (k : pass) (w : Weights) (patches : list Patch) :
  (forall w patches, length (proj_model w patches) = length patches) ->
  length (classified k w patches) = length patches.
Proof.
  intros rows. destruct k; [apply rows| |]; unfold classified.
  all: rewrite <- (concat_chunks patches) at 2.
  all: induction (py_range (length patches) 32) as [|start l IH]; [reflexivity|].
  all: cbn [map concat]; rewrite !length_app, rows, IH; reflexivity.
Qed.

(** C3. When the projector finds no rectangle in the batch, the batch
    loop sets [not_enough_rects], makes no call to the classifier, to the
    losses or metrics that depend on it or to the VOC metrics, and
    reports 0 as [metric_proj_acc]. *)
Theorem no_rectangles_short_circuit (k : pass) (b : batch) (s : state) :
  aligned (projection_of k b s) ->
  rectangles (projection_of k b s) = [] ->
  exists r s',
    batch_body k b s = Some (r, s') /\
    not_enough_rects r = true /\
    calls s' = calls s /\
    dict_get (batch_metrics r) "metric_proj_acc" = Some (Fin 0) /\
    exists l, dict_get (collection s') "metric_proj_acc" = Some (l ++ [Fin 0]).
Proof.
  destruct b as [[img mask] class_mask]. destruct s as [w gs po col bx io cl].
  cbn [projection_of weights]. intros (hr & hc & hi) none.
  rewrite none in hr. symmetry in hr. apply length_zero_iff_nil in hr.
  destruct k; unfold_body; exec;
    set (p := process_batch_torch_wrap _ _ _ _) in *;
    rewrite hr; cbn [length Nat.eqb]; exec; try run_metrics_step; exec.
  all: eexists; eexists; split; [reflexivity|]; exec.
  all: repeat split.
  all: try (rewrite dict_get_set_other by discriminate; apply dict_get_set_same).
  all: rewrite collector_get_add_other by discriminate; apply collector_get_add_same.
Qed.

(** Under row-preserving collaborators every batch body runs to its
    end; its losses and what it reports and collects are as follows. *)
Lemma batch_body_runs (k : pass) (b : batch) (s : state) :
  row_preserving E ->
  let p := projection_of k b s in
  let loss := segmentation_loss k b s in
  exists r s',
    batch_body k b s = Some (r, s') /\
    segm_loss r = loss /\
    ((exists c, In c (proj_class p) /\ (0 <= c)%Z) ->
     exists input target,
       index_mask (classified k (weights s) (patches_of k b s)) (ge0 (proj_class p))
       = Some input /\
       index_mask (proj_class p) (ge0 (proj_class p)) = Some target /\
       proj_loss r = cross_entropy input target /\
       total_loss r = fadd loss (cross_entropy input target)) /\
    (~ (exists c, In c (proj_class p) /\ (0 <= c)%Z) ->
     total_loss r = loss /\ proj_loss r = Fin 0) /\
    (exists l, dict_get (collection s') "total_loss" = Some (l ++ [total_loss r])) /\
    (exists l, dict_get (collection s') "proj_loss" = Some (l ++ [proj_loss r])) /\
    (exists l, dict_get (collection s') "segm_loss" = Some (l ++ [segm_loss r])) /\
    dict_get (batch_metrics r) "metric_found_rects" = Some (found_rects p) /\
    (exists l, dict_get (collection s') "metric_found_rects"
               = Some (l ++ [found_rects p])).
Proof.
  intros (al & pp & pm).
  destruct b as [[img mask] class_mask]. destruct s as [w gs po col bx io cl].
  cbv zeta. cbn [projection_of segmentation_loss patches_of weights].
  destruct (al img (binarize (model (training k) w img)) class_mask (training k))
    as (hr & hc & hi).
  assert (rows : forall patches : list Patch,
             length patches = length (proj_class
               (process_batch_torch_wrap img (binarize (model (training k) w img))
                  class_mask (training k))) ->
             length (classified k w patches)
             = length (ge0 (proj_class
                 (process_batch_torch_wrap img (binarize (model (training k) w img))
                    class_mask (training k))))).
  { intros patches e. now rewrite length_classified, length_ge0 by exact pm. }
  destruct k; cbn [training] in *;
    set (p := process_batch_torch_wrap _ _ _ _) in *;
    set (patches := process_patches img (rectangles p) (image_index p));
    specialize (rows patches ltac:(unfold patches; rewrite pp; congruence));
    assert (rows' : length (proj_class p) = length (ge0 (proj_class p)))
      by (now rewrite length_ge0);
    pose proof (count_true_pos (proj_class p)) as matched;
    pose proof (eqb_zero_ltb (count_true (ge0 (proj_class p)))) as zero;
    (destruct (length (proj p) =? 0)%nat eqn:empty;
     [ assert (none : ~ exists c, In c (proj_class p) /\ (0 <= c)%Z)
         by (apply Nat.eqb_eq in empty; rewrite empty in hc;
             apply length_zero_iff_nil in hc; rewrite hc; intros (c & [] & _))
     | assert (ne : patches <> [])
         by (intros e; apply (f_equal (@length Patch)) in e; unfold patches in e;
             rewrite pp, hr in e; apply Nat.eqb_neq in empty; simpl in e; lia);
       destruct (0 <? count_true (ge0 (proj_class p)))%nat eqn:some ]);
    unfold_body; exec; fold p; rewrite empty;
    repeat (exec;
            first [ rewrite (index_mask_length _ _ rows)
                  | rewrite (index_mask_length _ _
                               (rows : length (classified Val w patches) = _))
                  | rewrite (index_mask_length _ _ rows')
                  | rewrite zero
                  | rewrite some
                  | rewrite (classify_in_chunks_run _ _ ne)
                  | run_metrics_step
                  | progress fold patches
                  | progress change (proj_model w patches)
                      with (classified Train w patches) ]);
    exec.
  all: eexists; eexists; (split; [reflexivity|]); exec.
  all: split; [reflexivity|]; split;
    [ intros h;
      first [ eexists; eexists; repeat split; reflexivity
            | exfalso; first [ contradiction
                             | apply matched, Nat.ltb_lt in h; congruence ] ] |].
  all: split;
    [ intros h;
      first [ split; reflexivity
            | exfalso; apply h, matched, Nat.ltb_lt; assumption ] |].
  all: split; [first [collected keep | collected rows]|].
  all: split; [first [collected keep | collected rows]|].
  all: split; [first [collected keep | collected rows]|].
  all: split;
    [ rewrite ?(dict_get_set_other _ "metric_found_rects" "VOC_Metrics_AP")
        by discriminate;
      apply dict_get_set_same
    | rewrite ?(collector_get_add_other _ "metric_found_rects" "VOC_Metrics_AP")
        by discriminate;
      apply collector_get_add_same ].
Qed.

(** C9. In each of the three batch loops the total loss is the
    segmentation loss plus the cross-entropy of the classifier's logits
    over the regions with a class [>= 0], when there is such a region;
    otherwise it is the segmentation loss alone and the projection loss
    is 0. The three losses are what the collector receives. *)
Theorem total_loss_rule (k : pass) (b : batch) (s : state) :
  row_preserving E ->
  let p := projection_of k b s in
  let loss := segmentation_loss k b s in
  exists r s',
    batch_body k b s = Some (r, s') /\
    segm_loss r = loss /\
    ((exists c, In c (proj_class p) /\ (0 <= c)%Z) ->
     exists input target,
       index_mask (classified k (weights s) (patches_of k b s)) (ge0 (proj_class p))
       = Some input /\
       index_mask (proj_class p) (ge0 (proj_class p)) = Some target /\
       proj_loss r = cross_entropy input target /\
       total_loss r = fadd loss (cross_entropy input target)) /\
    (~ (exists c, In c (proj_class p) /\ (0 <= c)%Z) ->
     total_loss r = loss /\ proj_loss r = Fin 0) /\
    (exists l, dict_get (collection s') "total_loss" = Some (l ++ [total_loss r])) /\
    (exists l, dict_get (collection s') "proj_loss" = Some (l ++ [proj_loss r])) /\
    (exists l, dict_get (collection s') "segm_loss" = Some (l ++ [segm_loss r])).
Proof.
  intros rp.
  destruct (batch_body_runs k b s rp) as (r & s' & run & h1 & h2 & h3 & h4 & h5 & h6 & _).
  exists r, s'. exact (conj run (conj h1 (conj h2 (conj h3 (conj h4 (conj h5 h6)))))).
Qed.

(** The sum of the found indicators counts the found regions. *)
Lemma fsum_found (m : matches) (entries : list Z) :
  encodes m entries ->
  forall a, exists t,
    fold_left fadd (to_float (ge0 entries)) (Fin a) = Fin t /\
    t == a + inject_Z (Z.of_nat (length (filter found m))).
Proof.
  induction 1 as [|o entry m entries enc _ IH]; intros a.
  - exists a. split; [reflexivity|]. simpl. ring.
  - cbn [ge0 to_float map fold_left fadd].
    destruct o as [row|].
    + replace (0 <=? entry)%Z with true by (symmetry; apply Z.leb_le; lia).
      destruct (IH (a + Metrics.b2q true)) as (t & e & ht).
      exists t. split; [exact e|]. rewrite ht. cbn [filter found length].
      rewrite inject_nat_succ. simpl. ring.
    + replace (0 <=? entry)%Z with false by (symmetry; apply Z.leb_gt; lia).
      destruct (IH (a + Metrics.b2q false)) as (t & e & ht).
      exists t. split; [exact e|]. rewrite ht. cbn [filter found]. simpl. ring.
Qed.

Lemma found_rate_of_matches (m : matches) (entries : list Z) :
  encodes m entries ->
  m <> [] ->
  feq (fmean (to_float (ge0 entries))) (Fin (fraction_found m)).
Proof.
  intros enc some. pose proof (Forall2_length enc) as len.
  destruct m as [|o m]; [contradiction|].
  unfold fmean, fsum. destruct (fsum_found (o :: m) entries enc 0) as (t & -> & ht).
  unfold to_float, ge0. rewrite !length_map, <- len.
  rewrite fdiv_Fin.
  - unfold fraction_found. cbn [feq]. rewrite ht. field.
    cbn [length]. rewrite inject_nat_succ.
    pose proof (inject_nat_nonneg (length m)). lra.
  - cbn [length]. rewrite inject_nat_succ.
    pose proof (inject_nat_nonneg (length m)). lra.
Qed.

(** C4. For a batch with at least one ground-truth region, the found
    rate that the batch reports is the fraction of its ground-truth
    regions that received a matching prediction; the regions without
    one count in the denominator. *)
Theorem found_rate_is_fraction_found (k : pass) (b : batch) (s : state) (m : matches) :
  row_preserving E ->
  encodes m (true_pred_map (projection_of k b s)) ->
  m <> [] ->
  exists r s' rate,
    batch_body k b s = Some (r, s') /\
    dict_get (batch_metrics r) "metric_found_rects" = Some rate /\
    (exists l, dict_get (collection s') "metric_found_rects" = Some (l ++ [rate])) /\
    feq rate (Fin (fraction_found m)).
Proof.
  intros rp e some.
  destruct (batch_body_runs k b s rp)
    as (r & s' & run & _ & _ & _ & _ & _ & _ & reported & collected).
  exists r, s', (found_rects (projection_of k b s)).
  split; [exact run|]. split; [exact reported|]. split; [exact collected|].
  unfold found_rects. now apply found_rate_of_matches.
Qed.

Lemma select_none {A} (t : list A) (mask : list bool) :
  count_true mask = 0%nat -> map fst (filter snd (combine t mask)) = [].
Proof.
  unfold count_true. revert mask. induction t as [|a t IH]; intros mask none;
    [reflexivity|].
  destruct mask as [|[|] mask]; [reflexivity|discriminate none|].
  cbn [combine filter snd]. apply IH, none.
Qed.

(** What the batch loops report as [metric_proj_acc] for a batch with
    rectangles of which none has a class [>= 0]: [train_epoch] asks
    [special_accuracy] about no region at all and reports its answer;
    [val_epoch] and [calc_metrics] report 0 and do not ask. *)
Lemma proj_acc_without_match (k : pass) (b : batch) (s : state) :
  row_preserving E ->
  let p := projection_of k b s in
  proj p <> [] ->
  (forall c, In c (proj_class p) -> (c < 0)%Z) ->
  exists r s',
    batch_body k b s = Some (r, s') /\
    not_enough_rects r = false /\
    match k with
    | Train =>
        dict_get (batch_metrics r) "metric_proj_acc"
        = Some (special_accuracy [] [] (true_pred_map p)) /\
        In (Call_special_accuracy [] [] (true_pred_map p)) (calls s')
    | _ =>
        dict_get (batch_metrics r) "metric_proj_acc" = Some (Fin 0) /\
        forall pred cls found,
          In (Call_special_accuracy pred cls found) (calls s') ->
          In (Call_special_accuracy pred cls found) (calls s)
    end.
Proof.
  intros (al & pp & pm).
  destruct b as [[img mask] class_mask]. destruct s as [w gs po col bx io cl].
  cbv zeta. cbn [projection_of weights].
  destruct (al img (binarize (model (training k) w img)) class_mask (training k))
    as (hr & hc & hi).
  assert (rows : forall patches : list Patch,
             length patches = length (proj_class
               (process_batch_torch_wrap img (binarize (model (training k) w img))
                  class_mask (training k))) ->
             length (classified k w patches)
             = length (ge0 (proj_class
                 (process_batch_torch_wrap img (binarize (model (training k) w img))
                    class_mask (training k))))).
  { intros patches e. now rewrite length_classified, length_ge0 by exact pm. }
  intros some_rect unmatched.
  destruct k; cbn [training] in *;
    set (p := process_batch_torch_wrap _ _ _ _) in *;
    set (patches := process_patches img (rectangles p) (image_index p));
    specialize (rows patches ltac:(unfold patches; rewrite pp; congruence));
    assert (rows' : length (proj_class p) = length (ge0 (proj_class p)))
      by (now rewrite length_ge0);
    pose proof (eqb_zero_ltb (count_true (ge0 (proj_class p)))) as zero;
    assert (empty : (length (proj p) =? 0)%nat = false)
      by (apply Nat.eqb_neq; intros e; apply length_zero_iff_nil in e; contradiction);
    assert (ne : patches <> [])
      by (intros e; apply (f_equal (@length Patch)) in e; unfold patches in e;
          rewrite pp, hr in e; apply Nat.eqb_neq in empty; simpl in e; lia);
    assert (none : count_true (ge0 (proj_class p)) = 0%nat)
      by (destruct (count_true (ge0 (proj_class p))) eqn:e; [reflexivity|];
          assert (pos : (0 < count_true (ge0 (proj_class p)))%nat) by lia;
          apply count_true_pos in pos; destruct pos as (c & hin & hc');
          specialize (unmatched c hin); lia);
    assert (some : (0 <? count_true (ge0 (proj_class p)))%nat = false)
      by (rewrite none; reflexivity);
    unfold_body; exec; fold p; rewrite empty;
    repeat (exec;
            first [ rewrite (index_mask_length _ _ rows)
                  | rewrite (index_mask_length _ _
                               (rows : length (classified Val w patches) = _))
                  | rewrite (index_mask_length _ _ rows')
                  | rewrite zero
                  | rewrite some
                  | rewrite (classify_in_chunks_run _ _ ne)
                  | rewrite (select_none _ _ none)
                  | run_metrics_step
                  | progress fold patches
                  | progress change (proj_model w patches)
                      with (classified Train w patches) ]);
    exec.
  all: eexists; eexists; (split; [reflexivity|]); exec.
  all: split; [reflexivity|]; split.
  all: try (rewrite ?(dict_get_set_other _ "metric_proj_acc" "VOC_Metrics_AP")
              by discriminate;
            rewrite dict_get_set_other by discriminate; apply dict_get_set_same).
  - (* train: the call is in the trace *)
    rewrite !in_app_iff. left. right. now left.
  - (* val *)
    intros pred cls found. rewrite !in_app_iff.
    intros [[h | h] | [h | []]]; [exact h | | discriminate h].
    apply in_map_iff in h. destruct h as (start & h & _). discriminate h.
  - (* calc *)
    intros pred cls found. rewrite !in_app_iff.
    intros [[h | h] | [h | []]]; [exact h | | discriminate h].
    apply in_map_iff in h. destruct h as (start & h & _). discriminate h.
Qed.

(** [calc_metrics] begins with an empty store of its own: the boxes of an
    earlier pass do not reach it. *)
Lemma calc_metrics_starts_empty (it : list batch) (s : state) (stale : BoundingBoxes) :
  calc_metrics it (set_boxes stale s) = calc_metrics it s.
Proof. destruct s. reflexivity. Qed.

Lemma add_all_boxes (new : list Box) (store : BoundingBoxes) :
  fold_left addBoundingBox new store = store ++ new.
Proof.
  revert store. induction new as [|box new IH]; intros store; cbn [fold_left].
  - now rewrite app_nil_r.
  - rewrite IH. unfold addBoundingBox. now rewrite <- app_assoc.
Qed.

(** lines 364-370: the offset handed to [maP_create_boxes] is the number
    of boxes in the store, and the new boxes go to its end. *)
Lemma accumulate_boxes_run (p : Projection Proj) (class_mask : ClassMask) (s : state)
  (out : list Logits) :
  proj_out s = Some out ->
  accumulate_boxes false p class_mask s
  = Some (tt,
          set_boxes
            (boxes s ++ maP_create_boxes (rectangles p) out (image_index p) class_mask
                          (length (boxes s)))
            (set_calls (calls s ++ [Call_maP_create_boxes (rectangles p)
                                      (length (boxes s))]) s)).
Proof.
  destruct s as [w gs po col bx io cl]. cbn [proj_out]. intros ->.
  unfold accumulate_boxes. exec. now rewrite add_all_boxes.
Qed.

End BatchFacts.

Section Observations.

(** Reading an observation off a run without writing the run out. *)
Lemma observed {A B} (o : option A) (f : A -> B) (v : B) (a : A) :
  option_map f o = Some v -> o = Some a -> f a = v.
Proof. intros e ->. now injection e. Qed.

Lemma ran {A} (o : option A) :
  match o with Some _ => true | None => false end = true -> exists a, o = Some a.
Proof. destruct o as [a|]; [now exists a | discriminate]. Qed.

End Observations.

(** [running m as p run]: the computation [m] returns, [p] names what
    it returns. [seen run f]: what [f] shows of the result of [run]. *)
Tactic Notation "running" constr(m) "as" simple_intropattern(p) ident(run) :=
  destruct (ran m ltac:(vm_compute; reflexivity)) as (p & run).
Ltac seen run f := refine (observed _ f _ _ _ run); reflexivity.

Section BatchExamples.

Import Trainer Projections Toy.

#[local] Existing Instance world.

Local Open Scope string_scope.
Local Open Scope list_scope.

Lemma world_row_preserving : row_preserving world.
Proof.
  split; [|split].
  - intros img out_mask class_mask filter_masks.
    unfold aligned. cbn. now rewrite !length_map.
  - reflexivity.
  - intros w patches. apply length_map.
Qed.

Lemma no_rectangles_witness :
  aligned (projection_of Train blank start) /\
  rectangles (projection_of Train blank start) = [] /\
  exists r s',
    batch_body Train blank start = Some (r, s') /\
    not_enough_rects r = true /\
    calls s' = calls start /\
    dict_get (batch_metrics r) "metric_proj_acc" = Some (Fin 0) /\
    exists l, dict_get (collection s') "metric_proj_acc" = Some (l ++ [Fin 0]).
Proof.
  split; [repeat split|]. split; [reflexivity|].
  apply (no_rectangles_short_circuit Train blank start); [repeat split | reflexivity].
Defined.

Lemma found_rate_witness :
  row_preserving world /\
  encodes mixed_matches (true_pred_map (projection_of Val mixed start)) /\
  mixed_matches <> [] /\
  exists r s' rate,
    batch_body Val mixed start = Some (r, s') /\
    dict_get (batch_metrics r) "metric_found_rects" = Some rate /\
    (exists l, dict_get (collection s') "metric_found_rects" = Some (l ++ [rate])) /\
    feq rate (Fin (fraction_found mixed_matches)).
Proof.
  split; [exact world_row_preserving|]. split; [repeat constructor|].
  split; [discriminate|].
  apply (found_rate_is_fraction_found Val mixed start mixed_matches);
    [exact world_row_preserving | repeat constructor | discriminate].
Defined.

(** C4 as stated fails on [stray], a batch without a ground-truth
    region: the matcher has nothing to report on, and the found rate of
    the batch, the mean of no entry, is NaN in [train_epoch] as in
    [val_epoch]: it is the fraction found for no number that the fraction
    could be. *)
Theorem found_rate_without_regions :
  row_preserving world /\
  encodes [] (true_pred_map (projection_of Train stray start)) /\
  encodes [] (true_pred_map (projection_of Val stray start)) /\
  (exists r s',
      batch_body Train stray start = Some (r, s') /\
      dict_get (batch_metrics r) "metric_found_rects" = Some NaN) /\
  (exists r s',
      batch_body Val stray start = Some (r, s') /\
      dict_get (batch_metrics r) "metric_found_rects" = Some NaN) /\
  ~ (exists (fraction : Q) r s' rate,
        batch_body Val stray start = Some (r, s') /\
        dict_get (batch_metrics r) "metric_found_rects" = Some rate /\
        feq rate (Fin fraction)).
Proof.
  split; [exact world_row_preserving|].
  split; [constructor|]. split; [constructor|].
  running (batch_body Train stray start) as [r0 s0] train.
  running (batch_body Val stray start) as [r1 s1] val.
  assert (rate : dict_get (batch_metrics r1) "metric_found_rects" = Some NaN)
    by seen val (fun a : batch_report * state =>
                   dict_get (batch_metrics (fst a)) "metric_found_rects").
  split.
  { exists r0, s0. split; [exact train|].
    seen train (fun a : batch_report * state =>
                  dict_get (batch_metrics (fst a)) "metric_found_rects"). }
  split; [exists r1, s1; now split|].
  intros (fraction & r & s' & reported & run & found & same).
  rewrite val in run. injection run as <- <-.
  rewrite rate in found. injection found as <-.
  exact same.
Qed.

Lemma chunked_classification_witness :
  (forall w patches, proj_model (Collaborators := world) w patches
                     = map (classify w) patches) /\
  exists s' chunks,
    classify_in_chunks (E := world) (at_x 70 :: seventy) start = Some (tt, s') /\
    calls s' = calls start ++ map Call_proj_model chunks /\
    concat chunks = at_x 70 :: seventy /\
    Forall (fun chunk => length chunk <= 32)%nat chunks /\
    proj_out s' = Some (proj_model (Collaborators := world) (weights start)
                          (at_x 70 :: seventy)).
Proof.
  split; [reflexivity|].
  apply (chunked_classification_equivalence (E := world) classify
           (fun _ _ => eq_refl) (at_x 70) seventy start).
Defined.

(** C6 as stated fails for a classifier that looks at its batch, and on
    no patch. The classifier of [Batchwise.world] is a function of its
    input; on thirty-three patches the loop of lines 249-254 leaves its
    answers to a chunk of 32 and to a chunk of 1 in [proj_out], not its
    answer to the thirty-three. On no patch the guard of line 249 skips
    the loop: [proj_out] stays unbound, where one call on no patch
    returns no row. *)
Theorem chunked_classification_differs :
  (exists s',
      classify_in_chunks (E := Batchwise.world) Batchwise.thirty_three Batchwise.start
      = Some (tt, s') /\
      proj_out s' = Some (repeat [32] 32 ++ [[1]]) /\
      proj_model (Collaborators := Batchwise.world) (weights Batchwise.start)
        Batchwise.thirty_three = repeat [33] 33 /\
      proj_out s' <> Some (proj_model (Collaborators := Batchwise.world)
                             (weights Batchwise.start) Batchwise.thirty_three)) /\
  (exists s',
      classify_in_chunks (E := world) [] start = Some (tt, s') /\
      calls s' = calls start /\
      proj_out s' = None /\
      proj_out s' <> Some (proj_model (Collaborators := world) (weights start) [])).
Proof.
  split.
  - running (classify_in_chunks (E := Batchwise.world) Batchwise.thirty_three
               Batchwise.start) as [[] s'] run.
    exists s'. split; [exact run|].
    assert (chunked : proj_out s' = Some (repeat [32] 32 ++ [[1]]))
      by seen run (fun a : unit * @state Batchwise.world => proj_out (snd a)).
    assert (whole : proj_model (Collaborators := Batchwise.world)
                      (weights Batchwise.start) Batchwise.thirty_three = repeat [33] 33)
      by (vm_compute; reflexivity).
    split; [exact chunked|]. split; [exact whole|].
    rewrite chunked, whole. intros e.
    apply (f_equal (fun o => match o with Some (row :: _) => row | _ => [] end)) in e.
    vm_compute in e. discriminate e.
  - exists start. split; [reflexivity|]. split; [reflexivity|]. split; [reflexivity|].
    discriminate.
Qed.

Lemma total_loss_witness :
  row_preserving world /\
  exists r s',
    batch_body Calc mixed start = Some (r, s') /\
    segm_loss r = segmentation_loss Calc mixed start /\
    ((exists c, In c (proj_class (projection_of Calc mixed start)) /\ (0 <= c)%Z) ->
     exists input target,
       index_mask (classified Calc (weights start) (patches_of Calc mixed start))
         (ge0 (proj_class (projection_of Calc mixed start))) = Some input /\
       index_mask (proj_class (projection_of Calc mixed start))
         (ge0 (proj_class (projection_of Calc mixed start))) = Some target /\
       proj_loss r = cross_entropy input target /\
       total_loss r = fadd (segmentation_loss Calc mixed start) (cross_entropy input target)) /\
    (~ (exists c, In c (proj_class (projection_of Calc mixed start)) /\ (0 <= c)%Z) ->
     total_loss r = segmentation_loss Calc mixed start /\ proj_loss r = Fin 0) /\
    (exists l, dict_get (collection s') "total_loss" = Some (l ++ [total_loss r])) /\
    (exists l, dict_get (collection s') "proj_loss" = Some (l ++ [proj_loss r])) /\
    (exists l, dict_get (collection s') "segm_loss" = Some (l ++ [segm_loss r])).
Proof.
  split; [exact world_row_preserving|].
  apply (total_loss_rule Calc mixed start world_row_preserving).
Defined.

(** C5 on [stray], a batch whose only rectangle matches no annotated
    region: [train_epoch] calls [special_accuracy] on no region and
    reports its NaN, where [val_epoch] and [calc_metrics] report 0. *)
Theorem proj_acc_of_unmatched_batch :
  (exists r s',
      train_epoch_batch stray start = Some (r, s') /\
      not_enough_rects r = false /\
      dict_get (batch_metrics r) "metric_proj_acc" = Some NaN /\
      In (Call_special_accuracy [] [] []) (calls s')) /\
  (exists r s',
      val_epoch_batch stray start = Some (r, s') /\
      not_enough_rects r = false /\
      dict_get (batch_metrics r) "metric_proj_acc" = Some (Fin 0)) /\
  (exists r s',
      calc_metrics_batch stray start = Some (r, s') /\
      not_enough_rects r = false /\
      dict_get (batch_metrics r) "metric_proj_acc" = Some (Fin 0)).
Proof.
  split; [|split].
  - running (train_epoch_batch stray start) as [r s'] run.
    exists r, s'. split; [exact run|].
    split; [seen run (fun a : batch_report * state => not_enough_rects (fst a))|].
    split; [seen run (fun a : batch_report * state =>
                        dict_get (batch_metrics (fst a)) "metric_proj_acc")|].
    assert (trace : calls s' = [Call_proj_model [at_x 3]; Call_special_accuracy [] [] [];
                                Call_mAP_wrapper [at_x 3] [classify 0 (at_x 3)]])
      by seen run (fun a : batch_report * state => calls (snd a)).
    rewrite trace. right. now left.
  - running (val_epoch_batch stray start) as [r s'] run.
    exists r, s'. split; [exact run|].
    split; [seen run (fun a : batch_report * state => not_enough_rects (fst a))|].
    seen run (fun a : batch_report * state =>
                dict_get (batch_metrics (fst a)) "metric_proj_acc").
  - running (calc_metrics_batch stray start) as [r s'] run.
    exists r, s'. split; [exact run|].
    split; [seen run (fun a : batch_report * state => not_enough_rects (fst a))|].
    seen run (fun a : batch_report * state =>
                dict_get (batch_metrics (fst a)) "metric_proj_acc").
Qed.

(** C7 on the pass over [late] and [early]: the store was empty when
    the pass began, the offsets passed were 0 and 2, the numbers of boxes
    stored before each batch, and the two boxes of the last image of
    [late] and the two of the second image of [early] all carry the image
    id 3. *)
Theorem image_ids_of_two_batches_collide :
  exists epoch_loss reduced s',
    calc_metrics [late; early] (set_boxes [{| image_id := 7; class_id := 0;
                                              confidence := 1; rectangle := at_x 9;
                                              is_ground_truth := true |}] start)
    = Some ((epoch_loss, reduced), s') /\
    calls s' = [Call_proj_model [at_x 0]; Call_cross_entropy [one_hot 0] [0%Z];
                Call_special_accuracy [one_hot 0] [0%Z] [0%Z];
                Call_maP_create_boxes [at_x 0] 0;
                Call_proj_model [at_x 1]; Call_cross_entropy [one_hot 1] [1%Z];
                Call_special_accuracy [one_hot 1] [1%Z] [0%Z];
                Call_maP_create_boxes [at_x 1] 2] /\
    map (fun box => (image_id box, rectangle box)) (boxes s')
    = [(3, at_x 0); (3, at_x 0); (3, at_x 1); (3, at_x 1)]%nat.
Proof.
  running (calc_metrics [late; early]
             (set_boxes [{| image_id := 7; class_id := 0; confidence := 1;
                            rectangle := at_x 9; is_ground_truth := true |}] start))
    as [[epoch_loss reduced] s'] run.
  exists epoch_loss, reduced, s'. split; [exact run|]. split.
  - seen run (fun a : float * dict float * state => calls (snd a)).
  - seen run (fun a : float * dict float * state =>
                map (fun box => (image_id box, rectangle box)) (boxes (snd a))).
Qed.

End BatchExamples.
Section MonadInversion.

Import Trainer.

Context {E : Collaborators}.

Local Open Scope string_scope.
Local Open Scope list_scope.

Lemma bind_inv {A C} (m : M A) (k : A -> M C) (s s' : state) (c : C) :
  bind m k s = Some (c, s') ->
  exists a s1, m s = Some (a, s1) /\ k a s1 = Some (c, s').
Proof.
  unfold bind. destruct (m s) as [[a s1]|]; [|discriminate].
  intros run. now exists a, s1.
Qed.

Lemma dict_get_map {V W} (f : V -> W) (d : dict V) (k : string) :
  dict_get (map (fun '(name, v) => (name, f v)) d) k = option_map f (dict_get d k).
Proof.
  induction d as [|[k' v] d IH]; [reflexivity|].
  cbn [map dict_get]. destruct (String.eqb k k'); [reflexivity | exact IH].
Qed.

End MonadInversion.

Section OrderFacts.

Lemma flt_Fin (a b : Q) : flt (Fin a) (Fin b) = true <-> a < b.
Proof.
  cbn [flt]. rewrite negb_true_iff. split.
  - intros e. apply Qnot_le_lt. intros le. apply Qle_bool_iff in le. congruence.
  - intros lt. destruct (Qle_bool b a) eqn:e; [|reflexivity].
    apply Qle_bool_iff in e. lra.
Qed.

Lemma flt_Fin_false (a b : Q) : flt (Fin a) (Fin b) = false <-> b <= a.
Proof.
  cbn [flt]. rewrite negb_false_iff. apply Qle_bool_iff.
Qed.

Lemma flt_irrefl (x : float) : flt x x = false.
Proof.
  destruct x as [q| | |]; try reflexivity. apply flt_Fin_false. lra.
Qed.

Lemma flt_asym (x y : float) : flt x y = true -> flt y x = false.
Proof.
  destruct x as [a| | |], y as [b| | |]; try reflexivity; try discriminate.
  rewrite flt_Fin, flt_Fin_false. lra.
Qed.

(** Below the least of the numbers is below each of them. *)
Lemma flt_below_least (x least p : float) :
  least <> NaN -> p <> NaN ->
  flt x least = true -> flt p least = false -> flt x p = true.
Proof.
  destruct x as [a| | |], least as [b| | |], p as [c| | |];
    try reflexivity; try discriminate; try congruence.
  rewrite !flt_Fin, flt_Fin_false. lra.
Qed.

End OrderFacts.

Section TrainFacts.

Import Trainer.

Context {E : Collaborators}.

Variable data : Loaders.

(** One turn of the epoch loop, read off its result. *)
Lemma train_one_epoch_inv (i_epoch : nat) (r r' : run) :
  train_one_epoch data i_epoch r = Some r' ->
  exists val_loss,
    val_losses r' = val_losses r ++ [val_loss] /\
    current_model_h5 r' = Some (state_dict (weights (self r'))) /\
    (((best_value r = None \/ exists best, best_value r = Some best /\
                                            flt val_loss best = true) /\
      best_value r' = Some val_loss /\
      best_model_h5 r' = current_model_h5 r' /\
      upgrades r' = upgrades r ++ [i_epoch]) \/
     ((exists best, best_value r = Some best /\ flt val_loss best = false) /\
      best_value r' = best_value r /\
      best_model_h5 r' = best_model_h5 r /\
      upgrades r' = upgrades r)).
Proof.
  unfold train_one_epoch.
  destruct (epoch_passes data i_epoch (self r)) as [[val_loss s]|] eqn:passes;
    [|discriminate].
  destruct (best_value r) as [best|] eqn:eb.
  - destruct (flt val_loss best) eqn:lower; intros [= <-]; exists val_loss; cbn.
    + repeat split. left. repeat split. right. now exists best.
    + repeat split. right. repeat split. now exists best.
  - intros [= <-]. exists val_loss. cbn.
    repeat split. left. repeat split. now left.
Qed.

Lemma train_loop_app (l1 l2 : list nat) (r : run) :
  train_loop data (l1 ++ l2) r
  = match train_loop data l1 r with
    | Some r1 => train_loop data l2 r1
    | None => None
    end.
Proof.
  revert r. induction l1 as [|i l1 IH]; intros r; [reflexivity|].
  cbn [app train_loop]. destruct (train_one_epoch data i r); [apply IH | reflexivity].
Qed.

Variable trainer : state.
Variables current best : option StateDict.

Lemma train_succ (n : nat) (r' : run) :
  train data (S n) trainer current best = Some r' ->
  exists r, train data n trainer current best = Some r /\
            train_one_epoch data n r = Some r'.
Proof.
  unfold train. rewrite seq_S, train_loop_app. cbn [Nat.add].
  destruct (train_loop data (seq 0 n) _) as [r|]; [|discriminate].
  cbn [train_loop]. intros run. exists r. split; [reflexivity|].
  destruct (train_one_epoch data n r); [exact run | discriminate].
Qed.

(** After [n] epochs there are [n] validation losses, and the epochs
    that copied the model are among the [n]. *)
Lemma train_history (n : nat) :
  forall r, train data n trainer current best = Some r ->
    length (val_losses r) = n /\
    (forall i, In i (upgrades r) -> (i < n)%nat).
Proof.
  induction n as [|n IH]; intros r' run.
  - injection run as <-. cbn. split; [reflexivity | intros i []].
  - apply train_succ in run. destruct run as (r & before & turn).
    destruct (IH r before) as (len & ups).
    apply train_one_epoch_inv in turn.
    destruct turn as (v & hist & _ & turn). rewrite hist.
    split; [rewrite length_app, len; cbn; lia|].
    destruct turn as [(_ & _ & _ & ->) | (_ & _ & _ & ->)].
    + intros i hin. apply in_app_iff in hin. destruct hin as [hin | [<- | []]]; [|lia].
      specialize (ups i hin). lia.
    + intros i hin. specialize (ups i hin). lia.
Qed.

(** What [best_value] is after [n] epochs of which none had a NaN
    validation loss: nothing before the first epoch, then a validation
    loss that none of those seen is below. *)
Lemma train_least (n : nat) :
  forall r, train data n trainer current best = Some r ->
    (forall previous, In previous (val_losses r) -> previous <> NaN) ->
    match best_value r with
    | None => val_losses r = []
    | Some least => In least (val_losses r) /\
                    forall previous, In previous (val_losses r) ->
                                     flt previous least = false
    end.
Proof.
  induction n as [|n IH]; intros r' run numbers.
  - injection run as <-. reflexivity.
  - apply train_succ in run. destruct run as (r & before & turn).
    apply train_one_epoch_inv in turn.
    destruct turn as (v & hist & _ & turn). rewrite hist in *.
    assert (earlier : forall previous, In previous (val_losses r) -> previous <> NaN)
      by (intros p hin; apply numbers, in_app_iff; now left).
    specialize (IH r before earlier).
    destruct turn as [(lower & -> & _ & _) | ((b & eb & higher) & -> & _ & _)].
    + split; [apply in_app_iff; right; now left|].
      intros p hin. apply in_app_iff in hin.
      destruct hin as [hin | [<- | []]]; [|apply flt_irrefl].
      destruct lower as [none | (b & eb & lower)]; rewrite ?none, ?eb in IH.
      * rewrite IH in hin. destruct hin.
      * destruct IH as (bin & least). apply flt_asym.
        apply (flt_below_least v b p); auto.
    + rewrite eb in *. destruct IH as (bin & least).
      split; [apply in_app_iff; now left|].
      intros p hin. apply in_app_iff in hin.
      destruct hin as [hin | [<- | []]]; [now apply least | exact higher].
Qed.

(** C8. After each epoch [current_model.h5] holds the weights of the
    model as they are then, and [best_model.h5] either receives a copy
    of it or is left as it was. When none of the validation losses of
    the earlier epochs is NaN, it receives the copy in epoch [n] exactly
    when the validation loss of that epoch is strictly below the
    validation loss of every earlier epoch, which it is in the first
    epoch. *)
Theorem checkpoint_rule (n : nat) (r r' : run) :
  train data n trainer current best = Some r ->
  train data (S n) trainer current best = Some r' ->
  exists val_loss,
    val_losses r' = val_losses r ++ [val_loss] /\
    current_model_h5 r' = Some (state_dict (weights (self r'))) /\
    (In n (upgrades r') -> best_model_h5 r' = current_model_h5 r') /\
    (~ In n (upgrades r') -> best_model_h5 r' = best_model_h5 r) /\
    ((forall previous, In previous (val_losses r) -> previous <> NaN) ->
     (In n (upgrades r') <->
      forall previous, In previous (val_losses r) -> flt val_loss previous = true)).
Proof.
  intros before run. apply train_succ in run. destruct run as (r0 & before' & turn).
  rewrite before in before'. injection before' as <-.
  destruct (train_history n r before) as (len & ups).
  pose proof (train_least n r before) as least.
  apply train_one_epoch_inv in turn.
  destruct turn as (v & hist & saved & turn).
  exists v. split; [exact hist|]. split; [exact saved|].
  assert (fresh : ~ In n (upgrades r)) by (intros hin; specialize (ups n hin); lia).
  destruct turn as [(lower & _ & copied & ->) | ((b & eb & higher) & _ & kept & ->)].
  - split; [intros _; exact copied|].
    split; [intros no; exfalso; apply no, in_app_iff; right; now left|].
    intros numbers. specialize (least numbers).
    split; [|intros _; apply in_app_iff; right; now left].
    intros _ p hin.
    destruct lower as [none | (b & eb & lower)]; rewrite ?none, ?eb in least.
    + rewrite least in hin. destruct hin.
    + destruct least as (bin & least).
      apply (flt_below_least v b p); auto.
  - split; [intros hin; contradiction|].
    split; [intros _; exact kept|].
    intros numbers. specialize (least numbers). rewrite eb in least.
    destruct least as (bin & _).
    split; [intros hin; contradiction|].
    intros all. specialize (all b bin). congruence.
Qed.

End TrainFacts.

Section TrainExamples.

Import Trainer Toy.

#[local] Existing Instance world.

Lemma checkpoint_witness :
  exists r r',
    train loaders 1 start None None = Some r /\
    train loaders 2 start None None = Some r' /\
    (forall previous, In previous (val_losses r) -> previous <> NaN) /\
    exists val_loss,
      val_losses r' = val_losses r ++ [val_loss] /\
      current_model_h5 r' = Some (state_dict (weights (self r'))) /\
      (In 1%nat (upgrades r') -> best_model_h5 r' = current_model_h5 r') /\
      (~ In 1%nat (upgrades r') -> best_model_h5 r' = best_model_h5 r) /\
      ((forall previous, In previous (val_losses r) -> previous <> NaN) ->
       (In 1%nat (upgrades r') <->
        forall previous, In previous (val_losses r) -> flt val_loss previous = true)).
Proof.
  running (train loaders 1 start None None) as r first.
  running (train loaders 2 start None None) as r' second.
  exists r, r'. split; [exact first|]. split; [exact second|].
  split.
  - assert (history : val_losses r = [Fin (12 # 8)]) by seen first val_losses.
    rewrite history. intros previous [<- | []]. discriminate.
  - apply (checkpoint_rule loaders start None None 1 r r' first second).
Defined.

End TrainExamples.

Section DivergingExamples.

Import Trainer Diverging.

#[local] Existing Instance world.

(** C8 as stated fails when a validation loss is NaN. In
    [Diverging.world] the validation losses of the first three epochs
    are 1/2, NaN and 1/4: the third epoch copies the model to
    [best_model.h5], as 1/4 is below the 1/2 that [best_value] holds, and
    1/4 is not strictly below the NaN of the second epoch. *)
Theorem checkpoint_after_nan :
  exists r r',
    train loaders 2 start None None = Some r /\
    train loaders 3 start None None = Some r' /\
    val_losses r = [Fin (1 # 2); NaN] /\
    val_losses r' = val_losses r ++ [Fin (1 # 4)] /\
    In 2%nat (upgrades r') /\
    best_model_h5 r' = current_model_h5 r' /\
    best_model_h5 r' <> best_model_h5 r /\
    ~ (forall previous, In previous (val_losses r) ->
                        flt (Fin (1 # 4)) previous = true).
Proof.
  running (train loaders 2 start None None) as r second.
  running (train loaders 3 start None None) as r' third.
  exists r, r'. split; [exact second|]. split; [exact third|].
  assert (history : val_losses r = [Fin (1 # 2); NaN]) by seen second val_losses.
  split; [exact history|]. rewrite history.
  split; [seen third val_losses|].
  assert (copies : upgrades r' = [0; 2]%nat) by seen third upgrades.
  split; [rewrite copies; right; now left|].
  assert (best2 : best_model_h5 r = Some 1%nat) by seen second best_model_h5.
  assert (best3 : best_model_h5 r' = Some 3%nat) by seen third best_model_h5.
  assert (current3 : current_model_h5 r' = Some 3%nat) by seen third current_model_h5.
  split; [now rewrite best3, current3|].
  split; [rewrite best3, best2; discriminate|].
  intros all. specialize (all NaN ltac:(right; now left)). discriminate all.
Qed.

End DivergingExamples.

(** * Further facts about unet/metrics.py *)

Section ThresholdFacts.

Import Metrics Thresholds.







End ThresholdFacts.

Section OverlapFacts.

Import Metrics.

Lemma vsum_le {n} (v w : Vector.t Q n) :
  Vector.Forall2 Qle v w -> vsum v <= vsum w.
Proof.
  unfold vsum. induction 1 as [|n x y v w le _ IH]; cbn [Vector.fold_right]; lra.
Qed.

Lemma b2q_and_or (a b : bool) : b2q (a && b) <= b2q (a || b).
Proof. destruct a, b; cbn; lra. Qed.

Lemma map2_same {A n} (f : A -> A -> A) (v : Vector.t A n) :
  (forall a, f a a = a) -> Vector.map2 f v v = v.
Proof.
  intros idem. induction v as [|a n v IH]; [reflexivity|].
  cbn. now rewrite idem, IH.
Qed.

Variable sigmoid : Q -> Q.

Context {B H W : nat}.

Variables outputs labels : tensor4 Q B 1 H W.

Lemma intersection_le_union (i : Fin.t B) :
  Vector.nth (intersection sigmoid outputs labels) i
  <= Vector.nth (union sigmoid outputs labels) i.
Proof.
  unfold intersection, union, sum12, tmap2.
  rewrite !(Vector.nth_map _ _ i i eq_refl).
  rewrite !(Vector.nth_map2 _ _ _ i i i eq_refl eq_refl).
  apply vsum_le, Vector.Forall2_nth. intros h.
  rewrite !(Vector.nth_map _ _ h h eq_refl).
  rewrite !(Vector.nth_map2 _ _ _ h h h eq_refl eq_refl).
  apply vsum_le, Vector.Forall2_nth. intros w.
  rewrite !(Vector.nth_map _ _ w w eq_refl).
  rewrite !(Vector.nth_map2 _ _ _ w w w eq_refl eq_refl).
  apply b2q_and_or.
Qed.

Lemma SMOOTH_pos : 0 < SMOOTH.
Proof. reflexivity. Qed.

(** X2. On every image the intersection count is at most the union
    count, and the smoothed IoU of line 21 is a number above 0 and at
    most 1. *)
Theorem smoothed_iou_in_unit_interval (i : Fin.t B) :
  0 <= Vector.nth (intersection sigmoid outputs labels) i
  <= Vector.nth (union sigmoid outputs labels) i /\
  exists q, Vector.nth (smoothed_iou sigmoid outputs labels) i = Fin q /\ 0 < q <= 1.
Proof.
  pose proof (intersection_le_union i) as le.
  pose proof (sum12_nonneg
    (tmap2 andb (binarize_outputs sigmoid outputs) (binarize_labels labels)) i) as nonneg.
  fold (intersection sigmoid outputs labels) in nonneg.
  pose proof SMOOTH_pos as pos.
  split; [split; assumption|].
  eexists. split; [apply smoothed_iou_nth|]. split.
  - apply Qlt_shift_div_l; lra.
  - apply Qle_shift_div_r; lra.
Qed.

(** X3. An image whose binarized prediction is its binarized label,
    pixel for pixel, is given the score 1. *)
Theorem iou_of_exact_prediction (i : Fin.t B) :
  Vector.nth (binarize_outputs sigmoid outputs) i
  = Vector.nth (binarize_labels labels) i ->
  exists each, iou_pytorch sigmoid outputs labels false = PerImage each /\
               feq (Vector.nth each i) (Fin 1).
Proof.
  intros same.
  assert (e : Vector.nth (intersection sigmoid outputs labels) i
              = Vector.nth (union sigmoid outputs labels) i).
  { unfold intersection, union, sum12, tmap2.
    rewrite !(Vector.nth_map _ _ i i eq_refl).
    rewrite !(Vector.nth_map2 _ _ _ i i i eq_refl eq_refl), same.
    rewrite !map2_same; [reflexivity| |].
    - intros row. apply map2_same. now intros [|].
    - intros row. apply map2_same. now intros [|]. }
  pose proof (sum12_nonneg
    (tmap2 orb (binarize_outputs sigmoid outputs) (binarize_labels labels)) i) as nonneg.
  fold (union sigmoid outputs labels) in nonneg.
  pose proof SMOOTH_pos as pos.
  eexists; split; [reflexivity|].
  rewrite (Vector.nth_map _ _ i i eq_refl), smoothed_iou_nth, thresholded_Fin, e.
  set (u := Vector.nth (union sigmoid outputs labels) i) in *.
  assert (one : (u + SMOOTH) / (u + SMOOTH) == 1) by (field; lra).
  cbn [feq]. rewrite one. reflexivity.
Qed.


End OverlapFacts.

(** * Further facts about unet/train.py *)

Section SteadyFacts.

Import Trainer Frames.

Context {E : Collaborators}.

Variable R : state -> state -> Prop.

Hypothesis R_refl : forall s, R s s.
Hypothesis R_trans : forall s1 s2 s3, R s1 s2 -> R s2 s3 -> R s1 s3.

Lemma steady_ret {A} (a : A) : steady R (ret a).
Proof. intros s a' s' [= _ <-]. apply R_refl. Qed.

Lemma steady_gets {A} (f : state -> A) : steady R (gets f).
Proof. intros s a' s' [= _ <-]. apply R_refl. Qed.

Lemma steady_lift {A} (o : option A) : steady R (lift o).
Proof.
  intros s a' s'. unfold lift. destruct o; [|discriminate].
  intros [= _ <-]. apply R_refl.
Qed.

Lemma steady_modify (f : state -> state) :
  (forall s, R s (f s)) -> steady R (modify f).
Proof. intros frame s a' s' [= _ <-]. apply frame. Qed.

Lemma steady_bind {A C} (m : M A) (k : A -> M C) :
  steady R m -> (forall a, steady R (k a)) -> steady R (bind m k).
Proof.
  intros sm sk s c s' run.
  apply bind_inv in run. destruct run as (a & s1 & run1 & run2).
  exact (R_trans _ _ _ (sm s a s1 run1) (sk a s1 c s' run2)).
Qed.

Lemma steady_for_each {A C} (f : A -> M C) (l : list A) :
  (forall a, steady R (f a)) -> steady R (for_each f l).
Proof.
  intros sf. induction l as [|a l IH]; cbn [for_each].
  - apply steady_ret.
  - apply steady_bind; [apply sf|]. intros c.
    apply steady_bind; [exact IH|]. intros cs. apply steady_ret.
Qed.

End SteadyFacts.

Section FrameFacts.

Import Trainer Frames.

Context {E : Collaborators}.

Local Open Scope string_scope.
Local Open Scope list_scope.

Lemma same_trainer_refl (s : state) : same_trainer s s.
Proof. now split. Qed.

Lemma same_trainer_trans (s1 s2 s3 : state) :
  same_trainer s1 s2 -> same_trainer s2 s3 -> same_trainer s1 s3.
Proof. unfold same_trainer. intros [-> ->] [-> ->]. now split. Qed.

Lemma same_collection_refl (s : state) : same_collection s s.
Proof. reflexivity. Qed.

Lemma same_collection_trans (s1 s2 s3 : state) :
  same_collection s1 s2 -> same_collection s2 s3 -> same_collection s1 s3.
Proof. unfold same_collection. congruence. Qed.

Lemma same_losses_refl (s : state) : same_losses s s.
Proof. intros name _. reflexivity. Qed.

Lemma same_losses_trans (s1 s2 s3 : state) :
  same_losses s1 s2 -> same_losses s2 s3 -> same_losses s1 s3.
Proof. intros h1 h2 name hin. now rewrite (h2 name hin), (h1 name hin). Qed.

Lemma same_collection_losses (s s' : state) : same_collection s s' -> same_losses s s'.
Proof. intros e name _. now rewrite e. Qed.

Lemma same_losses_collect (name : string) (value : float) (s : state) :
  ~ In name ["total_loss"; "proj_loss"; "segm_loss"] ->
  same_losses s (set_collection (collector_add (collection s) name value) s).
Proof.
  intros other loss hin. cbn [collection set_collection].
  apply collector_get_add_other. intros ->. contradiction.
Qed.

End FrameFacts.

Section TrainerStateFacts.

Import Trainer Frames.

Context {E : Collaborators}.

Local Open Scope string_scope.
Local Open Scope list_scope.

(** Breaking a computation into steps that each keep a relation; [side]
    settles the steps that change the state. *)
Ltac frame r_refl r_trans side :=
  repeat first
    [ apply (steady_ret _ r_refl)
    | apply (steady_gets _ r_refl)
    | apply (steady_lift _ r_refl)
    | apply steady_modify; intros ?; side tt
    | apply (steady_for_each _ r_refl r_trans); intros ?
    | apply (steady_bind _ r_trans); [|intros ?]
    | match goal with
      | |- steady _ (if ?c then _ else _) => destruct c
      | |- steady _ (match ?x with _ => _ end) => destruct x
      end
    | progress unfold collect_losses, collect, log, read_proj_out, call_proj_model,
        add_proj_loss, classify_in_chunks, voc_metrics_ap, eval_losses,
        eval_proj_acc, accumulate_boxes ].

Ltac trainer_side _ := split; reflexivity.
Ltac keeps_trainer := frame constr:(same_trainer_refl) constr:(same_trainer_trans) trainer_side.

Ltac collection_side _ := reflexivity.
Ltac keeps_collection := frame constr:(same_collection_refl) constr:(same_collection_trans) collection_side.

Ltac losses_side _ :=
  first [ apply same_collection_losses; reflexivity
        | apply same_losses_collect;
          let e := fresh in
          intros [e|[e|[e|[]]]]; cbv [String.append] in e; discriminate e ].
Ltac keeps_losses := frame constr:(same_losses_refl) constr:(same_losses_trans) losses_side.

Lemma run_metrics_keeps_trainer (ms : dict (Out -> Mask -> float)) (out : Out)
  (mask : Mask) :
  forall bm, steady same_trainer (run_metrics ms out mask bm).
Proof.
  induction ms as [|[name f] ms IH]; intros bm; cbn [run_metrics].
  - keeps_trainer.
  - apply (steady_bind _ same_trainer_trans); [keeps_trainer | intros _; apply IH].
Qed.

Lemma run_metrics_keeps_losses (ms : dict (Out -> Mask -> float)) (out : Out)
  (mask : Mask) :
  forall bm, steady same_losses (run_metrics ms out mask bm).
Proof.
  induction ms as [|[name f] ms IH]; intros bm; cbn [run_metrics].
  - keeps_losses.
  - apply (steady_bind _ same_losses_trans); [keeps_losses | intros _; apply IH].
Qed.

Lemma eval_batch_keeps_trainer (k : pass) (b : batch) :
  k <> Train -> steady same_trainer (batch_body k b).
Proof.
  intros eval. destruct b as [[img mask] class_mask].
  destruct k; [contradiction| |]; cbn [batch_body];
    unfold val_epoch_batch, calc_metrics_batch;
    repeat first [ apply run_metrics_keeps_trainer
                 | apply (steady_bind _ same_trainer_trans); [|intros ?]
                 | progress keeps_trainer ].
Qed.

Lemma reduce_epoch_keeps_trainer : steady same_trainer reduce_epoch.
Proof. unfold reduce_epoch. keeps_trainer. Qed.

Lemma eval_pass_keeps_trainer (k : pass) (it : list batch) :
  k <> Train -> steady same_trainer (run_pass k it).
Proof.
  intros eval.
  destruct k; [contradiction| |]; cbn [run_pass]; unfold val_epoch, calc_metrics;
    repeat first [ apply reduce_epoch_keeps_trainer
                 | apply (eval_batch_keeps_trainer Val); discriminate
                 | apply (eval_batch_keeps_trainer Calc); discriminate
                 | apply (steady_bind _ same_trainer_trans); [|intros ?]
                 | progress keeps_trainer ].
Qed.

(** X5. [val_epoch] and [calc_metrics] leave the trainer as it was: a
    pass that returns has changed neither the parameters nor the step
    count. *)
Theorem evaluation_keeps_trainer (k : pass) (it : list batch) (s s' : state)
  (result : float * dict float) :
  k <> Train ->
  run_pass k it s = Some (result, s') ->
  weights s' = weights s /\ global_step s' = global_step s.
Proof.
  intros eval run. exact (eval_pass_keeps_trainer k it eval s result s' run).
Qed.

(** One step of a run that went through: the first computation of a bind
    and what it returned. *)
Ltac step run :=
  apply bind_inv in run;
  let a := fresh "a" in
  let s := fresh "s" in
  let e := fresh "e" in
  destruct run as (a & s & e & run);
  try match type of e with
      | ?m _ = Some _ =>
          let st := fresh "st" in
          assert (st : steady same_trainer m)
            by (first [apply run_metrics_keeps_trainer | keeps_trainer]);
          apply st in e; clear st
      end.

Lemma train_batch_state (b : batch) (s s' : state) (r : batch_report) :
  train_epoch_batch b s = Some (r, s') ->
  weights s' = optim_step (weights s) b /\ global_step s' = S (global_step s).
Proof.
  destruct b as [[img mask] class_mask]. unfold train_epoch_batch. intros run.
  step run. step run. destruct a0 as [[total proj_loss] flag].
  step run. injection e1 as <-.
  do 6 step run. step run. injection e7 as <-. injection run as _ <-. subst.
  unfold same_trainer in *.
  repeat match goal with h : _ /\ _ |- _ => destruct h end.
  cbn [weights global_step set_weights set_global_step] in *.
  split; congruence.
Qed.

Lemma for_each_train_state (it : list batch) :
  forall s s' reports,
    for_each train_epoch_batch it s = Some (reports, s') ->
    weights s' = trained (weights s) it /\
    global_step s' = (global_step s + length it)%nat.
Proof.
  induction it as [|b it IH]; intros s s' reports run; cbn [for_each] in run.
  - injection run as _ <-. cbn. split; [reflexivity | lia].
  - apply bind_inv in run. destruct run as (r & s1 & first & run).
    apply bind_inv in run. destruct run as (rs & s2 & rest & [= _ <-]).
    apply train_batch_state in first. destruct first as [w g].
    destruct (IH _ _ _ rest) as [w' g'].
    rewrite w', g', w, g. cbn [trained fold_left length]. split; [reflexivity | lia].
Qed.

Lemma train_epoch_state (it : list batch) (s s' : state) (result : float * dict float) :
  train_epoch it s = Some (result, s') ->
  weights s' = trained (weights s) it /\
  global_step s' = (global_step s + length it)%nat.
Proof.
  unfold train_epoch. intros run.
  apply bind_inv in run. destruct run as ([] & s0 & [= <-] & run).
  apply bind_inv in run. destruct run as (reports & s1 & batches & run).
  apply reduce_epoch_keeps_trainer in run. destruct run as [-> ->].
  apply for_each_train_state in batches. exact batches.
Qed.

(** X6. A [train_epoch] that returns has taken one optimizer step per
    batch, in the order of the loader, and has counted them in
    [global_step]. *)
Theorem train_epoch_steps (it : list batch) (s s' : state)
  (result : float * dict float) :
  train_epoch it s = Some (result, s') ->
  weights s' = trained (weights s) it /\
  global_step s' = (global_step s + length it)%nat.
Proof. apply train_epoch_state. Qed.

Lemma epoch_passes_state (data : Loaders) (i_epoch : nat) (s s' : state)
  (val_loss : float) :
  epoch_passes data i_epoch s = Some (val_loss, s') ->
  weights s' = trained (weights s) (train_it data i_epoch) /\
  global_step s' = (global_step s + length (train_it data i_epoch))%nat.
Proof.
  unfold epoch_passes. intros run.
  apply bind_inv in run. destruct run as (trained_result & s1 & training & run).
  apply bind_inv in run. destruct run as (on_train & s2 & pass1 & run).
  apply bind_inv in run. destruct run as ([loss m] & s3 & pass2 & run).
  apply bind_inv in run. destruct run as (on_test & s4 & pass3 & [= _ <-]).
  apply train_epoch_state in training.
  apply (eval_pass_keeps_trainer Calc) in pass1, pass2, pass3; try discriminate.
  destruct training as [w g], pass1 as [w1 g1], pass2 as [w2 g2], pass3 as [w3 g3].
  split; congruence.
Qed.

Lemma train_one_epoch_state (data : Loaders) (i_epoch : nat) (r r' : run) :
  train_one_epoch data i_epoch r = Some r' ->
  weights (self r') = trained (weights (self r)) (train_it data i_epoch) /\
  global_step (self r')
  = (global_step (self r) + length (train_it data i_epoch))%nat.
Proof.
  unfold train_one_epoch.
  destruct (epoch_passes data i_epoch (self r)) as [[val_loss s]|] eqn:passes;
    [|discriminate].
  apply epoch_passes_state in passes.
  destruct (match best_value r with Some _ => _ | None => _ end);
    intros [= <-]; exact passes.
Qed.

(** X7. After [n] epochs of [train] the parameters are those reached by
    the optimizer steps of the [n] training passes, and [global_step],
    which [train] starts at 0, is the number of training batches seen;
    the evaluation passes in between change neither. *)
Theorem train_counts_steps (data : Loaders) (n : nat) (trainer : state)
  (current best : option StateDict) (r : run) :
  train data n trainer current best = Some r ->
  weights (self r) = trained_for data n (weights trainer) /\
  global_step (self r) = training_batches data n.
Proof.
  revert r. induction n as [|n IH]; intros r run.
  - injection run as <-. now split.
  - apply train_succ in run. destruct run as (r0 & before & turn).
    destruct (IH r0 before) as [w g].
    apply train_one_epoch_state in turn. destruct turn as [w' g'].
    cbn [trained_for training_batches]. split; congruence.
Qed.

Lemma collect_losses_run (total proj_l loss : float) (s : state) :
  collect_losses total proj_l loss s
  = Some (tt, set_collection
                (collector_add
                   (collector_add (collector_add (collection s) "total_loss" total)
                      "proj_loss" proj_l)
                   "segm_loss" loss) s).
Proof. reflexivity. Qed.

Lemma collector_values_add_same (c : Collector) (name : string) (value : float) :
  match dict_get (collector_add c name value) name with
  | Some values => values
  | None => []
  end
  = match dict_get c name with Some values => values | None => [] end ++ [value].
Proof.
  unfold collector_add. rewrite dict_get_set_same. now destruct (dict_get c name).
Qed.

Lemma same_losses_collected (s s' : state) (name : string) :
  same_losses s s' ->
  In name ["total_loss"; "proj_loss"; "segm_loss"] ->
  collected name s' = collected name s.
Proof. intros same hin. unfold collected. now rewrite (same name hin). Qed.

Lemma collect_losses_adds (total proj_l loss : float) (s s' : state) (u : unit) :
  collect_losses total proj_l loss s = Some (u, s') ->
  collected "total_loss" s' = collected "total_loss" s ++ [total] /\
  collected "proj_loss" s' = collected "proj_loss" s ++ [proj_l] /\
  collected "segm_loss" s' = collected "segm_loss" s ++ [loss].
Proof.
  rewrite collect_losses_run. intros e. injection e as _ <-.
  unfold collected. cbn [collection set_collection].
  repeat split;
    repeat (rewrite collector_get_add_other by discriminate);
    rewrite collector_values_add_same;
    repeat (rewrite collector_get_add_other by discriminate);
    reflexivity.
Qed.

(** One step of a run that went through, with the relation [R] that the
    step keeps, shown by [tac]. *)
Ltac step_keeping R tac run :=
  apply bind_inv in run;
  let a := fresh "a" in
  let s := fresh "s" in
  let e := fresh "e" in
  destruct run as (a & s & e & run);
  try match type of e with
      | ?m _ = Some _ =>
          let st := fresh "st" in
          assert (st : steady R m) by tac;
          apply st in e; clear st
      end.

Ltac collection_kept := first [keeps_collection].
Ltac losses_kept := first [apply run_metrics_keeps_losses | keeps_losses].

Lemma losses_added_between (s s1 s2 s' : state) (total proj_l loss : float) :
  same_collection s s1 ->
  collected "total_loss" s2 = collected "total_loss" s1 ++ [total] /\
  collected "proj_loss" s2 = collected "proj_loss" s1 ++ [proj_l] /\
  collected "segm_loss" s2 = collected "segm_loss" s1 ++ [loss] ->
  same_losses s2 s' ->
  collected "total_loss" s' = collected "total_loss" s ++ [total] /\
  collected "proj_loss" s' = collected "proj_loss" s ++ [proj_l] /\
  collected "segm_loss" s' = collected "segm_loss" s ++ [loss].
Proof.
  intros before (t & p & l) after.
  rewrite !(same_losses_collected _ _ _ after) by (cbn; tauto).
  rewrite t, p, l. unfold collected. now rewrite before.
Qed.

Ltac chained r_trans r_refl :=
  repeat (eapply r_trans; [eassumption|]); apply r_refl.

Lemma batch_collects (k : pass) (b : batch) (s s' : state) (r : batch_report) :
  batch_body k b s = Some (r, s') ->
  collected "total_loss" s' = collected "total_loss" s ++ [total_loss r] /\
  collected "proj_loss" s' = collected "proj_loss" s ++ [proj_loss r] /\
  collected "segm_loss" s' = collected "segm_loss" s ++ [segm_loss r].
Proof.
  destruct b as [[img mask] class_mask]. intros run.
  destruct k; cbn [batch_body] in run;
    unfold train_epoch_batch, val_epoch_batch, calc_metrics_batch in run.
  - step_keeping same_collection collection_kept run.
    step_keeping same_collection collection_kept run.
    destruct a0 as [[total proj_l] flag].
    step_keeping same_collection collection_kept run.
    step_keeping same_collection collection_kept run.
    apply collect_losses_adds in e2.
    do 6 step_keeping same_losses losses_kept run.
    injection run as <- <-. cbn [total_loss proj_loss segm_loss].
    eapply losses_added_between; [|exact e2|].
    + chained same_collection_trans same_collection_refl.
    + chained same_losses_trans same_losses_refl.
  - step_keeping same_collection collection_kept run.
    step_keeping same_collection collection_kept run.
    destruct a0 as [[total proj_l] flag].
    step_keeping same_collection collection_kept run.
    apply collect_losses_adds in e1.
    do 5 step_keeping same_losses losses_kept run.
    injection run as <- <-. cbn [total_loss proj_loss segm_loss].
    eapply losses_added_between; [|exact e1|].
    + chained same_collection_trans same_collection_refl.
    + chained same_losses_trans same_losses_refl.
  - step_keeping same_collection collection_kept run.
    step_keeping same_collection collection_kept run.
    destruct a0 as [[total proj_l] flag].
    step_keeping same_collection collection_kept run.
    apply collect_losses_adds in e1.
    do 5 step_keeping same_losses losses_kept run.
    injection run as <- <-. cbn [total_loss proj_loss segm_loss].
    eapply losses_added_between; [|exact e1|].
    + chained same_collection_trans same_collection_refl.
    + chained same_losses_trans same_losses_refl.
Qed.

Lemma for_each_collects (k : pass) (it : list batch) :
  forall s s' reports,
    for_each (batch_body k) it s = Some (reports, s') ->
    length reports = length it /\
    collected "total_loss" s'
    = collected "total_loss" s ++ map total_loss reports /\
    collected "proj_loss" s'
    = collected "proj_loss" s ++ map proj_loss reports /\
    collected "segm_loss" s'
    = collected "segm_loss" s ++ map segm_loss reports.
Proof.
  induction it as [|b it IH]; intros s s' reports run; cbn [for_each] in run.
  - injection run as <- <-. cbn [map length]. now rewrite !app_nil_r.
  - apply bind_inv in run. destruct run as (r & s1 & first & run).
    apply bind_inv in run. destruct run as (rs & s2 & rest & [= <- <-]).
    apply batch_collects in first. destruct first as (t & p & l).
    destruct (IH _ _ _ rest) as (len & t' & p' & l').
    cbn [map length]. rewrite t', p', l', t, p, l, len, <- !app_assoc.
    now repeat split.
Qed.

Lemma dict_get_remove_other {V} (d : dict V) (k k' : string) :
  k <> k' -> dict_get (dict_remove d k') k = dict_get d k.
Proof.
  intros ne. induction d as [|[name v] d IH]; [reflexivity|].
  cbn [dict_remove dict_get].
  destruct (String.eqb k' name) eqn:hit.
  - apply String.eqb_eq in hit. subst name.
    destruct (String.eqb k k') eqn:same; [|reflexivity].
    apply String.eqb_eq in same. contradiction.
  - cbn [dict_get]. now rewrite IH.
Qed.

Lemma fresh_collected (k : pass) (s : state) (name : string) :
  collected name (fresh k s) = [].
Proof. now destruct k. Qed.

(** The loop of a pass, and what [reduce_epoch] makes of its collector. *)
Lemma pass_inv (k : pass) (it : list batch) (s s' : state) (epoch_loss : float)
  (reduced : dict float) :
  run_pass k it s = Some ((epoch_loss, reduced), s') ->
  exists reports s1 rest,
    for_each (batch_body k) it (fresh k s) = Some (reports, s1) /\
    dict_pop (map (fun '(name, values) => (name, fmean values)) (collection s1))
      "total_loss" = Some (epoch_loss, rest) /\
    forall name, name <> "AP" -> name <> "IOU" ->
                 dict_get reduced name = dict_get rest name.
Proof.
  intros run. destruct k; cbn [run_pass] in run;
    unfold train_epoch, val_epoch, calc_metrics in run.
  - apply bind_inv in run. destruct run as ([] & s0 & [= <-] & run).
    apply bind_inv in run. destruct run as (reports & s1 & loop & run).
    apply bind_inv in run. destruct run as (c & s2 & [= <- <-] & run).
    unfold lift in run.
    destruct (dict_pop _ "total_loss") as [[loss rest]|] eqn:pop; [|discriminate].
    injection run as <- <- _. now exists reports, s1, rest.
  - apply bind_inv in run. destruct run as ([] & s0 & [= <-] & run).
    apply bind_inv in run. destruct run as (reports & s1 & loop & run).
    apply bind_inv in run. destruct run as (c & s2 & [= <- <-] & run).
    unfold lift in run.
    destruct (dict_pop _ "total_loss") as [[loss rest]|] eqn:pop; [|discriminate].
    injection run as <- <- _. now exists reports, s1, rest.
  - apply bind_inv in run. destruct run as ([] & s0 & [= <-] & run).
    apply bind_inv in run. destruct run as (reports & s1 & loop & run).
    apply bind_inv in run. destruct run as (store & s2 & [= <- <-] & run).
    apply bind_inv in run. destruct run as (scores & s3 & [= <- <-] & run).
    apply bind_inv in run. destruct run as ([loss rest] & s4 & red & [= <- <- _]).
    apply bind_inv in red. destruct red as (c & s5 & [= <- <-] & red).
    unfold lift in red.
    destruct (dict_pop _ "total_loss") as [[loss' rest']|] eqn:pop; [|discriminate].
    injection red as <- <- _. exists reports, s1, rest'.
    split; [exact loop|]. split; [exact pop|].
    intros name nap niou. now rewrite !dict_get_set_other.
Qed.

Lemma collected_some (name : string) (s : state) (values : list float) :
  collected name s = values -> values <> [] ->
  dict_get (collection s) name = Some values.
Proof.
  unfold collected. destruct (dict_get (collection s) name); intros <- ne.
  - reflexivity.
  - contradiction.
Qed.

Lemma pass_of_no_batch (k : pass) (s : state) : run_pass k [] s = None.
Proof. now destruct k. Qed.

(** X8. A pass over a loader that yields no batch raises: nothing was
    collected, so [epoch_reduced_metrics.pop("total_loss")] finds no such
    key. A pass that returns has seen at least one batch. *)
Theorem pass_needs_a_batch (k : pass) (it : list batch) (s s' : state)
  (result : float * dict float) :
  run_pass k it s = Some (result, s') -> it <> [].
Proof. intros run ->. now rewrite pass_of_no_batch in run. Qed.

(** X9. The epoch loss that a pass returns is the mean of the total
    losses of its batches, each batch counting once whatever its size,
    and the ["proj_loss"] and ["segm_loss"] of the epoch metrics are the
    means of the batches' projection and segmentation losses. *)
Theorem epoch_loss_is_mean (k : pass) (it : list batch) (s s' : state)
  (epoch_loss : float) (reduced : dict float) :
  run_pass k it s = Some ((epoch_loss, reduced), s') ->
  exists reports s1,
    for_each (batch_body k) it (fresh k s) = Some (reports, s1) /\
    length reports = length it /\
    epoch_loss = fmean (map total_loss reports) /\
    dict_get reduced "proj_loss"
    = Some (fmean (map proj_loss reports)) /\
    dict_get reduced "segm_loss"
    = Some (fmean (map segm_loss reports)).
Proof.
  intros run.
  destruct (pass_inv _ _ _ _ _ _ run) as (reports & s1 & rest & loop & pop & same).
  exists reports, s1. split; [exact loop|].
  destruct (for_each_collects _ _ _ _ _ loop) as (len & t & p & l).
  rewrite fresh_collected in t, p, l. cbn [app] in t, p, l.
  split; [exact len|].
  assert (some : reports <> []).
  { intros ->. destruct it; [|discriminate len].
    rewrite pass_of_no_batch in run. discriminate run. }
  assert (full : forall f : batch_report -> float, map f reports <> []).
  { intros f e. apply map_eq_nil in e. contradiction. }
  apply collected_some in t, p, l; try apply full.
  unfold dict_pop in pop. rewrite dict_get_map, t in pop. cbn [option_map] in pop.
  injection pop as <- <-.
  rewrite !same by discriminate.
  rewrite !dict_get_remove_other by discriminate.
  rewrite !dict_get_map, p, l. now repeat split.
Qed.

Lemma epoch_passes_batches (data : Loaders) (i_epoch : nat) (s s' : state)
  (val_loss : float) :
  epoch_passes data i_epoch s = Some (val_loss, s') ->
  train_it data i_epoch <> [] /\ train_metrics_it data i_epoch <> [] /\
  val_it data <> [] /\ test_it data <> [].
Proof.
  unfold epoch_passes. intros run.
  apply bind_inv in run. destruct run as (trained_result & s1 & training & run).
  apply bind_inv in run. destruct run as (on_train & s2 & pass1 & run).
  apply bind_inv in run. destruct run as ([loss m] & s3 & pass2 & run).
  apply bind_inv in run. destruct run as (on_test & s4 & pass3 & _).
  repeat split; intros e; rewrite e in *.
  - now rewrite (pass_of_no_batch Train : forall s, train_epoch [] s = None) in training.
  - now rewrite (pass_of_no_batch Calc : forall s, calc_metrics [] s = None) in pass1.
  - now rewrite (pass_of_no_batch Calc : forall s, calc_metrics [] s = None) in pass2.
  - now rewrite (pass_of_no_batch Calc : forall s, calc_metrics [] s = None) in pass3.
Qed.

(** X10. [train] gets through its epochs only when every loader yields a
    batch: the training loader in each epoch, and the loaders that
    [calc_metrics] reads for the training, validation and test scores. *)
Theorem train_needs_batches (data : Loaders) (n : nat) (trainer : state)
  (current best : option StateDict) (r : run) :
  train data n trainer current best = Some r ->
  forall i_epoch, (i_epoch < n)%nat ->
    train_it data i_epoch <> [] /\ train_metrics_it data i_epoch <> [] /\
    val_it data <> [] /\ test_it data <> [].
Proof.
  revert r. induction n as [|n IH]; intros r run i_epoch before; [lia|].
  apply train_succ in run. destruct run as (r0 & earlier & turn).
  destruct (Nat.eq_dec i_epoch n) as [->|ne].
  - unfold train_one_epoch in turn.
    destruct (epoch_passes data n (self r0)) as [[val_loss s]|] eqn:passes;
      [|discriminate].
    exact (epoch_passes_batches _ _ _ _ _ passes).
  - apply (IH r0 earlier). lia.
Qed.

Lemma same_scores_refl (s : state) : same_scores s s.
Proof. reflexivity. Qed.

Lemma same_scores_trans (s1 s2 s3 : state) :
  same_scores s1 s2 -> same_scores s2 s3 -> same_scores s1 s3.
Proof. unfold same_scores. congruence. Qed.

Ltac scores_side _ := reflexivity.
Ltac keeps_scores := frame constr:(same_scores_refl) constr:(same_scores_trans) scores_side.

Lemma calc_batch_scores (b : batch) (s s' : state) (r : batch_report) :
  calc_metrics_batch b s = Some (r, s') ->
  iou s' = iou s ++ (let '(img, mask, _) := b in
                     iou_per_image (model false (weights s) img) mask) /\
  weights s' = weights s.
Proof.
  intros run. split; [|exact (proj1 (eval_batch_keeps_trainer Calc b
                                      ltac:(discriminate) _ _ _ run))].
  destruct b as [[img mask] class_mask]. unfold calc_metrics_batch in run.
  apply bind_inv in run. destruct run as (w & s0 & [= <- <-] & run).
  step_keeping same_scores keeps_scores run.
  destruct a as [[total proj_l] flag].
  step_keeping same_scores keeps_scores run.
  step_keeping same_scores keeps_scores run.
  injection e1 as _ <-.
  do 4 step_keeping same_scores keeps_scores run.
  apply (steady_ret same_scores same_scores_refl) in run.
  assert (after : same_scores (set_iou (iou s1 ++ iou_per_image
                                         (model false (weights s) img) mask) s1) s')
    by chained same_scores_trans same_scores_refl.
  unfold same_scores in *. rewrite after. cbn [iou set_iou]. now rewrite e0, e.
Qed.


Lemma for_each_calc_scores (it : list batch) :
  forall s s' reports,
    for_each calc_metrics_batch it s = Some (reports, s') ->
    iou s' = iou s ++ concat (map (fun b : batch =>
                                     let '(img, mask, _) := b in
                                     iou_per_image (model false (weights s) img) mask) it) /\
    weights s' = weights s.
Proof.
  induction it as [|b it IH]; intros s s' reports run; cbn [for_each] in run.
  - injection run as _ <-. cbn [map concat]. now rewrite app_nil_r.
  - apply bind_inv in run. destruct run as (r & s1 & first & run).
    apply bind_inv in run. destruct run as (rs & s2 & rest & [= _ <-]).
    apply calc_batch_scores in first. destruct first as (scores & w).
    destruct (IH _ _ _ rest) as (scores' & w').
    rewrite scores', scores, w', w. cbn [map concat]. now rewrite app_assoc.
Qed.

(** X11. The ["IOU"] that [calc_metrics] returns is the mean of the
    scores of all the images of the pass, one score per image whatever
    batch it came in, computed with the weights the pass began with. *)
Theorem calc_metrics_iou (it : list batch) (s s' : state) (epoch_loss : float)
  (reduced : dict float) :
  calc_metrics it s = Some ((epoch_loss, reduced), s') ->
  dict_get reduced "IOU"
  = Some (fmean (concat (map (fun b : batch =>
                                let '(img, mask, _) := b in
                                iou_per_image (model false (weights s) img) mask) it))).
Proof.
  unfold calc_metrics. intros run.
  apply bind_inv in run. destruct run as ([] & s0 & [= <-] & run).
  apply bind_inv in run. destruct run as (reports & s1 & loop & run).
  apply bind_inv in run. destruct run as (store & s2 & [= <- <-] & run).
  apply bind_inv in run. destruct run as (scores & s3 & [= <- <-] & run).
  apply bind_inv in run. destruct run as ([loss rest] & s4 & _ & [= _ <- _]).
  apply for_each_calc_scores in loop. destruct loop as (scores & _).
  rewrite dict_get_set_same, scores. reflexivity.
Qed.


(** Running a batch body symbolically. *)
Ltac exec :=
  cbv beta iota zeta delta
    [bind gets modify ret lift log collect collect_losses read_proj_out
     call_proj_model add_proj_loss voc_metrics_ap eval_losses eval_proj_acc
     accumulate_boxes classify_in_chunks set_weights set_global_step set_proj_out
     set_collection set_boxes set_iou set_calls weights global_step proj_out
     collection boxes iou calls negb orb].

(** X12. A batch of [val_epoch] or [calc_metrics] with a region for
    which the patch sampler returns no patch, met while [proj_out] is
    unbound as it is in the first batch of a pass, raises: line 249 or
    332 skips the classifier, and the batch goes on to read [proj_out]. *)
Theorem eval_batch_without_patches (k : pass) (b : batch) (s : state) :
  k <> Train ->
  proj (projection_of k b s) <> [] ->
  patches_of k b s = [] ->
  proj_out s = None ->
  batch_body k b s = None.
Proof.
  intros eval. destruct b as [[img mask] class_mask].
  destruct s as [w gs po col bx io cl].
  cbn [projection_of patches_of weights proj_out]. intros some none ->.
  assert (rows : (length (proj (process_batch_torch_wrap img
                                  (binarize (model (training k) w img)) class_mask
                                  (training k))) =? 0)%nat = false)
    by (apply Nat.eqb_neq; intros e; apply length_zero_iff_nil in e; contradiction).
  destruct k; [contradiction| |]; cbn [training batch_body] in *;
    unfold val_epoch_batch, calc_metrics_batch; exec;
    rewrite rows, none; cbn [length Nat.ltb Nat.leb]; exec;
    match goal with
    | |- context [count_true ?m] => destruct (count_true m)
    end; exec; try reflexivity;
    try match goal with
        | |- context [run_metrics ?ms ?o ?m ?bm ?st] =>
            let bm' := fresh "bm" in
            let c' := fresh "c" in
            let run := fresh "run" in
            destruct (run_metrics_run ms o m bm st) as (bm' & c' & run & _);
            rewrite run; clear run; exec
        end;
    reflexivity.
Qed.

End TrainerStateFacts.

Section ChunkSizes.

Import Trainer.

Context {E : Collaborators}.

Local Open Scope nat_scope.

Lemma chunk_count (n : nat) :
  32 * ((n + 32 - 1) / 32) <= n + 31 < 32 * ((n + 32 - 1) / 32) + 32.
Proof.
  pose proof (Nat.div_mod_eq (n + 32 - 1) 32).
  pose proof (Nat.mod_upper_bound (n + 32 - 1) 32). lia.
Qed.

Lemma length_slice {A} (l : list A) (start : nat) :
  length (slice l start (start + 32)) = Nat.min 32 (length l - start).
Proof. now rewrite slice_step, length_firstn, length_skipn. Qed.

(** X13. On at least one patch the loop of lines 249-254 calls the
    classifier [ceil(n / 32)] times for [n] patches, never on an empty
    sub-batch, and on exactly 32 patches in every call but the last. *)
Theorem chunks_are_full_but_last (patches : list Patch) (s : state) :
  patches <> [] ->
  exists s' chunks,
    classify_in_chunks patches s = Some (tt, s') /\
    calls s' = calls s ++ map Call_proj_model chunks /\
    length chunks = (length patches + 31) / 32 /\
    Forall (fun chunk => chunk <> []) chunks /\
    forall i, S i < length chunks -> length (nth i chunks []) = 32.
Proof.
  intros some. rewrite classify_in_chunks_run by exact some.
  eexists.
  exists (map (fun start => slice patches start (start + 32))
            (py_range (length patches) 32)).
  split; [reflexivity|].
  split; [cbn [calls set_proj_out set_calls]; now rewrite map_map|].
  pose proof (chunk_count (length patches)) as count.
  unfold py_range. rewrite !map_map, length_map, length_seq.
  split; [f_equal; lia|].
  split.
  - apply Forall_map, Forall_forall. intros k hin. apply in_seq in hin.
    intros e. apply (f_equal (@length Patch)) in e.
    rewrite length_slice in e. cbn [length] in e. lia.
  - intros i last.
    rewrite (nth_indep _ [] (slice patches (0 * 32) (0 * 32 + 32)))
      by (rewrite length_map, length_seq; lia).
    rewrite (map_nth (fun k => slice patches (k * 32) (k * 32 + 32)) _ 0%nat i).
    rewrite seq_nth by lia. rewrite length_slice. lia.
Qed.

End ChunkSizes.

Section DatasetFacts.

Import Datasets.

Context {A : Type}.

Lemma slice_to_prefix (l : list A) (stop : Z) :
  exists n, slice_to l stop = firstn n l.
Proof. unfold slice_to. destruct (stop <? 0)%Z; eexists; reflexivity. Qed.

Lemma firstn_skipn_length (l : list A) (n : nat) :
  firstn n l ++ skipn (length (firstn n l)) l = l.
Proof.
  rewrite length_firstn.
  destruct (Nat.le_ge_cases n (length l)) as [le | ge].
  - rewrite Nat.min_l by exact le. apply firstn_skipn.
  - rewrite Nat.min_r by exact ge.
    rewrite firstn_all2 by exact ge. rewrite skipn_all. apply app_nil_r.
Qed.

Variable shuffle : list A -> list A.
Variable train_count : nat -> Z.

(** X14. [load_datasets] splits the shuffled files in two: the training
    files followed by the validation files are the shuffled files,
    whatever count the train fraction gives, so that with a shuffle that
    permutes, every listed file is in exactly one of the two sets, as
    often as it was listed. A count between 0 and the number of files is
    the number of training files. *)
Theorem load_datasets_splits (files : list A) :
  (forall l, Permutation l (shuffle l)) ->
  let '(train_files, val_files) := load_datasets shuffle train_count files in
  train_files ++ val_files = shuffle files /\
  Permutation files (train_files ++ val_files) /\
  ((0 <= train_count (length (shuffle files)) <= Z.of_nat (length files))%Z ->
   length train_files = Z.to_nat (train_count (length (shuffle files))) /\
   (length train_files + length val_files = length files)%nat).
Proof.
  intros permutes. unfold load_datasets, slice_from.
  destruct (slice_to_prefix (shuffle files) (train_count (length (shuffle files))))
    as (n & prefix).
  assert (whole : slice_to (shuffle files) (train_count (length (shuffle files)))
                  ++ skipn (length (slice_to (shuffle files)
                                      (train_count (length (shuffle files)))))
                       (shuffle files) = shuffle files)
    by (rewrite prefix; apply firstn_skipn_length).
  split; [exact whole|].
  split; [rewrite whole; apply permutes|].
  intros bounds.
  pose proof (Permutation_length (permutes files)) as same.
  assert (train : length (slice_to (shuffle files) (train_count (length (shuffle files))))
                  = Z.to_nat (train_count (length (shuffle files)))).
  { unfold slice_to.
    destruct (train_count (length (shuffle files)) <? 0)%Z eqn:neg;
      [apply Z.ltb_lt in neg; lia|].
    rewrite length_firstn. lia. }
  split; [exact train|].
  rewrite <- length_app, whole. now symmetry.
Qed.

End DatasetFacts.

Section ImageGroups.

Import Trainer Visual.

Lemma skipn_nth_error {A} (l : list A) (i : nat) (x : A) :
  nth_error l i = Some x -> skipn i l = x :: skipn (S i) l.
Proof.
  revert l. induction i as [|i IH]; intros [|y l] e; try discriminate e.
  - now injection e as ->.
  - cbn [skipn]. apply IH, e.
Qed.

Lemma nth_error_combine {A B} (l : list A) (l' : list B) (i : nat) (x : A) (y : B) :
  nth_error l i = Some x -> nth_error l' i = Some y ->
  nth_error (combine l l') i = Some (x, y).
Proof.
  revert l l'. induction i as [|i IH]; intros [|a l] [|b l'] e e'; try discriminate.
  - now injection e as ->; injection e' as ->.
  - cbn [combine nth_error]. now apply IH.
Qed.

Lemma append_to_inv {A} (groups groups' : list (list A)) (image_i : nat) (entry : A) :
  append_to groups image_i entry = Some groups' ->
  length groups' = length groups /\
  forall j, nth_error groups' j
            = if (image_i =? j)%nat
              then option_map (fun group => group ++ [entry]) (nth_error groups j)
              else nth_error groups j.
Proof.
  unfold append_to.
  destruct (nth_error groups image_i) as [group|] eqn:at_i; [|discriminate].
  intros [= <-].
  change (match groups with [] => [] | _ :: l => skipn image_i l end)
    with (skipn (S image_i) groups).
  assert (inside : (image_i < length groups)%nat)
    by (apply nth_error_Some; congruence).
  split.
  - rewrite length_app, length_firstn, length_cons, length_skipn. lia.
  - intros j. destruct (image_i =? j)%nat eqn:here.
    + apply Nat.eqb_eq in here. subst j. rewrite at_i. cbn [option_map].
      rewrite nth_error_app2 by (rewrite length_firstn; lia).
      rewrite length_firstn.
      replace (image_i - Nat.min image_i (length groups))%nat with 0%nat by lia.
      reflexivity.
    + apply Nat.eqb_neq in here.
      destruct (Nat.lt_ge_cases j image_i) as [before | after].
      * rewrite nth_error_app1 by (rewrite length_firstn; lia).
        now rewrite nth_error_firstn, (proj2 (Nat.ltb_lt _ _) before).
      * rewrite nth_error_app2 by (rewrite length_firstn; lia).
        rewrite length_firstn.
        replace (j - Nat.min image_i (length groups))%nat
          with (S (j - S image_i)) by lia.
        cbn [nth_error]. rewrite nth_error_skipn. f_equal. lia.
Qed.

Lemma regions_of_cons {A} (j image_i : nat) (image_index : list nat) (value : A)
  (values : list A) :
  regions_of j (image_i :: image_index) (value :: values)
  = if (image_i =? j)%nat then value :: regions_of j image_index values
    else regions_of j image_index values.
Proof.
  unfold regions_of. cbn [combine filter fst]. now destruct (image_i =? j)%nat.
Qed.

Lemma group_from_inv (image_index : list nat) (true_classes pred_classes : list Z)
  (rects : list Rect) :
  forall i grouped_classes grouped_rectangles grouped_classes' grouped_rectangles',
    group_from i image_index true_classes pred_classes rects
      grouped_classes grouped_rectangles
    = Some (grouped_classes', grouped_rectangles') ->
    length grouped_classes' = length grouped_classes /\
    length grouped_rectangles' = length grouped_rectangles /\
    forall j,
      nth_error grouped_classes' j
      = option_map (fun group =>
                      group ++ regions_of j image_index
                                 (skipn i (combine true_classes pred_classes)))
          (nth_error grouped_classes j) /\
      nth_error grouped_rectangles' j
      = option_map (fun group => group ++ regions_of j image_index (skipn i rects))
          (nth_error grouped_rectangles j).
Proof.
  induction image_index as [|image_i rest IH]; intros i gc gr gc' gr' run;
    cbn [group_from] in run.
  - injection run as <- <-. split; [reflexivity|]. split; [reflexivity|].
    intros j. split.
    + destruct (nth_error gc j); [cbn; now rewrite app_nil_r | reflexivity].
    + destruct (nth_error gr j); [cbn; now rewrite app_nil_r | reflexivity].
  - destruct (nth_error true_classes i) as [t|] eqn:et; [|discriminate].
    destruct (nth_error pred_classes i) as [p|] eqn:ep; [|discriminate].
    destruct (append_to gc image_i (t, p)) as [gc1|] eqn:classes; [|discriminate].
    destruct (nth_error rects i) as [r|] eqn:er; [|discriminate].
    destruct (append_to gr image_i r) as [gr1|] eqn:rectangles; [|discriminate].
    apply append_to_inv in classes, rectangles.
    destruct classes as (len_c & at_c), rectangles as (len_r & at_r).
    destruct (IH _ _ _ _ _ run) as (len_c' & len_r' & groups).
    split; [congruence|]. split; [congruence|].
    intros j. destruct (groups j) as (classes_j & rectangles_j).
    rewrite classes_j, rectangles_j, at_c, at_r.
    rewrite (skipn_nth_error _ i (t, p)) by now apply nth_error_combine.
    rewrite (skipn_nth_error _ i r) by exact er.
    rewrite !regions_of_cons.
    destruct (image_i =? j)%nat; [|now split].
    split.
    + destruct (nth_error gc j); [cbn; now rewrite <- app_assoc | reflexivity].
    + destruct (nth_error gr j); [cbn; now rewrite <- app_assoc | reflexivity].
Qed.

(** X15. When the grouping of lines 407-411 goes through, there is one
    group per image, and the group of image [j] holds, in the order of
    the regions, the true and predicted class of every region of that
    image on the one side and its rectangle on the other: the two lists
    that line 419 zips go region by region. *)
Theorem group_by_image_groups (N : nat) (image_index : list nat)
  (true_classes pred_classes : list Z) (rects : list Rect)
  (grouped_classes : list (list (Z * Z))) (grouped_rectangles : list (list Rect)) :
  group_by_image N image_index true_classes pred_classes rects
  = Some (grouped_classes, grouped_rectangles) ->
  length grouped_classes = N /\
  length grouped_rectangles = N /\
  forall j, (j < N)%nat ->
    nth_error grouped_classes j
    = Some (regions_of j image_index (combine true_classes pred_classes)) /\
    nth_error grouped_rectangles j = Some (regions_of j image_index rects) /\
    length (regions_of j image_index (combine true_classes pred_classes))
    = length (regions_of j image_index rects).
Proof.
  unfold group_by_image. intros run.
  pose proof run as sizes.
  apply group_from_inv in run. destruct run as (len_c & len_r & groups).
  rewrite repeat_length in len_c, len_r.
  split; [exact len_c|]. split; [exact len_r|].
  intros j inside. destruct (groups j) as (classes_j & rectangles_j).
  rewrite nth_error_repeat in classes_j, rectangles_j by exact inside.
  cbn [option_map app skipn] in classes_j, rectangles_j.
  split; [exact classes_j|]. split; [exact rectangles_j|].
  unfold regions_of. rewrite !length_map.
  clear - sizes. revert sizes.
  generalize (repeat (@nil (Z * Z)) N), (repeat (@nil Rect) N).
  change (combine true_classes pred_classes)
    with (skipn 0 (combine true_classes pred_classes)).
  change rects with (skipn 0 rects) at 2.
  generalize 0%nat.
  induction image_index as [|image_i rest IH]; intros i gc gr run; [reflexivity|].
  cbn [group_from] in run.
  destruct (nth_error true_classes i) as [t|] eqn:et; [|discriminate].
  destruct (nth_error pred_classes i) as [p|] eqn:ep; [|discriminate].
  destruct (append_to gc image_i (t, p)) as [gc1|]; [|discriminate].
  destruct (nth_error rects i) as [r|] eqn:er; [|discriminate].
  destruct (append_to gr image_i r) as [gr1|]; [|discriminate].
  rewrite (skipn_nth_error _ i (t, p)) by now apply nth_error_combine.
  rewrite (skipn_nth_error _ i r) by exact er.
  cbn [combine filter fst]. specialize (IH _ _ _ run).
  destruct (image_i =? j)%nat; cbn [length]; now rewrite IH.
Qed.

End ImageGroups.

Section MetricsExtraExamples.

Import Metrics Overlap.

Lemma iou_of_exact_prediction_witness :
  Vector.nth (binarize_outputs rational_sigmoid lit_outputs) Fin.F1
  = Vector.nth (binarize_labels lit_labels) Fin.F1 /\
  exists each, iou_pytorch rational_sigmoid lit_outputs lit_labels false = PerImage each /\
               feq (Vector.nth each Fin.F1) (Fin 1).
Proof.
  split; [reflexivity|].
  apply (iou_of_exact_prediction rational_sigmoid lit_outputs lit_labels Fin.F1).
  reflexivity.
Defined.

End MetricsExtraExamples.

Section TrainerExtraExamples.

Import Trainer Frames Toy.

#[local] Existing Instance world.

Local Open Scope string_scope.
Local Open Scope list_scope.

Lemma evaluation_keeps_trainer_witness :
  exists result s',
    Val <> Train /\
    run_pass Val [mixed; blank] start = Some (result, s') /\
    weights s' = weights start /\ global_step s' = global_step start.
Proof.
  running (run_pass Val [mixed; blank] start) as [result s'] run.
  exists result, s'. split; [discriminate|]. split; [exact run|].
  apply (evaluation_keeps_trainer Val [mixed; blank] start s' result);
    [discriminate | exact run].
Defined.

Lemma train_epoch_steps_witness :
  exists result s',
    train_epoch [mixed; stray] start = Some (result, s') /\
    weights s' = trained (weights start) [mixed; stray] /\
    global_step s' = (global_step start + length [mixed; stray])%nat.
Proof.
  running (train_epoch [mixed; stray] start) as [result s'] run.
  exists result, s'. split; [exact run|].
  apply (train_epoch_steps [mixed; stray] start s' result run).
Defined.

Lemma train_counts_steps_witness :
  exists r,
    train loaders 2 start None None = Some r /\
    weights (self r) = trained_for loaders 2 (weights start) /\
    global_step (self r) = training_batches loaders 2.
Proof.
  running (train loaders 2 start None None) as r run.
  exists r. split; [exact run|].
  apply (train_counts_steps loaders 2 start None None r run).
Defined.

Lemma pass_needs_a_batch_witness :
  exists result s',
    run_pass Calc [stray] start = Some (result, s') /\ [stray] <> [].
Proof.
  running (run_pass Calc [stray] start) as [result s'] run.
  exists result, s'. split; [exact run|].
  apply (pass_needs_a_batch Calc [stray] start s' result run).
Defined.

Lemma epoch_loss_is_mean_witness :
  exists epoch_loss reduced s',
    run_pass Val [mixed; blank] start = Some ((epoch_loss, reduced), s') /\
    exists reports s1,
      for_each (batch_body Val) [mixed; blank] (fresh Val start) = Some (reports, s1) /\
      length reports = length [mixed; blank] /\
      epoch_loss = fmean (map total_loss reports) /\
      dict_get reduced "proj_loss" = Some (fmean (map proj_loss reports)) /\
      dict_get reduced "segm_loss" = Some (fmean (map segm_loss reports)).
Proof.
  running (run_pass Val [mixed; blank] start) as [[epoch_loss reduced] s'] run.
  exists epoch_loss, reduced, s'. split; [exact run|].
  apply (epoch_loss_is_mean Val [mixed; blank] start s' epoch_loss reduced run).
Defined.

Lemma train_needs_batches_witness :
  exists r,
    train loaders 2 start None None = Some r /\
    forall i_epoch, (i_epoch < 2)%nat ->
      train_it loaders i_epoch <> [] /\ train_metrics_it loaders i_epoch <> [] /\
      val_it loaders <> [] /\ test_it loaders <> [].
Proof.
  running (train loaders 2 start None None) as r run.
  exists r. split; [exact run|].
  apply (train_needs_batches loaders 2 start None None r run).
Defined.

Lemma calc_metrics_iou_witness :
  exists epoch_loss reduced s',
    calc_metrics [late; early] start = Some ((epoch_loss, reduced), s') /\
    dict_get reduced "IOU"
    = Some (fmean (concat (map (fun b : batch =>
                                  let '(img, mask, _) := b in
                                  iou_per_image (model false (weights start) img) mask)
                             [late; early]))).
Proof.
  running (calc_metrics [late; early] start) as [[epoch_loss reduced] s'] run.
  exists epoch_loss, reduced, s'. split; [exact run|].
  apply (calc_metrics_iou [late; early] start s' epoch_loss reduced run).
Defined.

Lemma chunks_are_full_but_last_witness :
  seventy <> [] /\
  exists s' chunks,
    classify_in_chunks (E := world) seventy start = Some (tt, s') /\
    calls s' = calls start ++ map Call_proj_model chunks /\
    length chunks = ((length seventy + 31) / 32)%nat /\
    Forall (fun chunk => chunk <> []) chunks /\
    forall i, (S i < length chunks)%nat -> length (nth i chunks []) = 32%nat.
Proof.
  split; [discriminate|].
  apply (chunks_are_full_but_last (E := world) seventy start). discriminate.
Defined.

End TrainerExtraExamples.

Section DroppingExamples.

Import Trainer Dropping.

#[local] Existing Instance world.

Lemma eval_batch_without_patches_witness :
  Val <> Train /\
  proj (projection_of Val mixed start) <> [] /\
  patches_of Val mixed start = [] /\
  proj_out start = None /\
  batch_body Val mixed start = None.
Proof.
  split; [discriminate|]. split; [discriminate|].
  split; [reflexivity|]. split; [reflexivity|].
  apply (eval_batch_without_patches Val mixed start);
    [discriminate | discriminate | reflexivity | reflexivity].
Defined.

End DroppingExamples.

Section DatasetExamples.

Import Datasets Visual.

Lemma load_datasets_splits_witness :
  (forall l : list nat, Permutation l (rev l)) /\
  let '(train_files, val_files) :=
    load_datasets (@rev nat) (fun n => (Z.of_nat n * 3 / 4)%Z) [1; 2; 3; 4; 5]%nat in
  train_files ++ val_files = rev [1; 2; 3; 4; 5]%nat /\
  Permutation [1; 2; 3; 4; 5]%nat (train_files ++ val_files) /\
  ((0 <= Z.of_nat (length (rev [1; 2; 3; 4; 5]%nat)) * 3 / 4
    <= Z.of_nat (length [1; 2; 3; 4; 5]%nat))%Z ->
   length train_files
   = Z.to_nat (Z.of_nat (length (rev [1; 2; 3; 4; 5]%nat)) * 3 / 4) /\
   (length train_files + length val_files = length [1; 2; 3; 4; 5]%nat)%nat).
Proof.
  split; [apply Permutation_rev|].
  apply (load_datasets_splits (@rev nat) (fun n => (Z.of_nat n * 3 / 4)%Z)
           [1; 2; 3; 4; 5]%nat (@Permutation_rev nat)).
Defined.

Lemma group_by_image_groups_witness :
  exists grouped_classes grouped_rectangles,
    group_by_image 2 [1; 0; 1]%nat [0; 2; -1]%Z [0; 1; 3]%Z
      [Toy.at_x 0; Toy.at_x 1; Toy.at_x 2]
    = Some (grouped_classes, grouped_rectangles) /\
    length grouped_classes = 2%nat /\
    length grouped_rectangles = 2%nat /\
    forall j, (j < 2)%nat ->
      nth_error grouped_classes j
      = Some (regions_of j [1; 0; 1]%nat (combine [0; 2; -1]%Z [0; 1; 3]%Z)) /\
      nth_error grouped_rectangles j
      = Some (regions_of j [1; 0; 1]%nat [Toy.at_x 0; Toy.at_x 1; Toy.at_x 2]) /\
      length (regions_of j [1; 0; 1]%nat (combine [0; 2; -1]%Z [0; 1; 3]%Z))
      = length (regions_of j [1; 0; 1]%nat [Toy.at_x 0; Toy.at_x 1; Toy.at_x 2]).
Proof.
  eexists. eexists. split; [reflexivity|].
  apply (group_by_image_groups 2 [1; 0; 1]%nat [0; 2; -1]%Z [0; 1; 3]%Z
           [Toy.at_x 0; Toy.at_x 1; Toy.at_x 2]).
  reflexivity.
Defined.

End DatasetExamples.
